(** * trimics: a shallow embedding of [trimics.py]

    The script loads an iCalendar file with the [icalendar] package, keeps
    the events that are still current with respect to a cutoff date,
    optionally strips the vendor extension properties and writes the
    reduced calendar.  This development embeds class [ical] method by
    method and states the properties of the specification against it.

    Conventions of the embedding:
    - Python [int] is [Z]; [str] is [string], for ASCII text: [upper]
      folds the ASCII letters only.
    - An [icalendar] component is a case-insensitive ordered dictionary of
      properties together with a list [subcomponents]; the dictionary keeps
      its keys in upper case, and every key the script uses is an upper-case
      literal, so properties are a [gmap string value] over canonical keys.
    - Exceptions are values of [exn]; a call returns a [result].
    - [print] appends a [msg] to the output of the call.
    - The clock and the file system are arguments of the methods that read
      them. *)

From Stdlib Require Import ZArith String Ascii List Bool Lia.
From stdpp Require Import base option gmap strings list fin_maps.

Local Open Scope string_scope.
Local Open Scope Z_scope.
Local Open Scope list_scope.

(** ** Calendar dates ([datetime.date]) and [dateutil.relativedelta] *)

Module Date.

Record date := mkDate { year : Z; month : Z; day : Z }.

(** [a >= b] on [datetime.date]: comparison of (year, month, day). *)
Definition ge (a b : date) : bool :=
  (year b <? year a)
  || ((year a =? year b)
      && ((month b <? month a)
          || ((month a =? month b) && (day b <=? day a)))).

(** [calendar.isleap] *)
Definition isleap (y : Z) : bool :=
  (y mod 4 =? 0) && (negb (y mod 100 =? 0) || (y mod 400 =? 0)).

(** [calendar.monthrange(y, m)[1]] *)
Definition days_in_month (y m : Z) : Z :=
  if m =? 2 then (if isleap y then 29 else 28)
  else if (m =? 4) || (m =? 6) || (m =? 9) || (m =? 11) then 30
  else 31.

(** The two ways [date.replace] fails: a field outside its range
    ([ValueError]), or an argument that does not fit the C [int] the
    fields are converted to ([OverflowError]). *)
Inductive failure := FieldOutOfRange | IntOverflow.

Definition fits_c_int (z : Z) : bool :=
  (-2147483648 <=? z) && (z <=? 2147483647).

(** [date.replace(year=y, month=m, day=d)]: the arguments are converted
    to C [int]s first, then the constructor checks the fields, the year
    against [MINYEAR..MAXYEAR]. *)
Definition replace (y m d : Z) : date + failure :=
  if negb (fits_c_int y && fits_c_int m && fits_c_int d)
  then inr IntOverflow
  else if (1 <=? y) && (y <=? 9999) && (1 <=? m) && (m <=? 12)
          && (1 <=? d) && (d <=? days_in_month y m)
  then inl (mkDate y m d) else inr FieldOutOfRange.

(** The two fields of a [relativedelta] that [relativedelta(months=n)]
    can set. *)
Record relativedelta := mkDelta { years : Z; months : Z }.

(** [relativedelta(months=n)]: [_fix] carries whole years out of the
    month count, keeping the sign. *)
Definition delta_of_months (n : Z) : relativedelta :=
  if 11 <? Z.abs n
  then mkDelta (Z.sgn n * (Z.abs n / 12)) (Z.sgn n * (Z.abs n mod 12))
  else mkDelta 0 n.

(** [relativedelta.__neg__] *)
Definition neg (r : relativedelta) : relativedelta :=
  mkDelta (- years r) (- months r).

(** [relativedelta.__radd__]: shift year and month, clip the day to the
    length of the target month. *)
Definition add (r : relativedelta) (dt : date) : date + failure :=
  let y := year dt + years r in
  let m := month dt in
  let '(y, m) :=
    if months r =? 0 then (y, m)
    else
      let m := m + months r in
      if 12 <? m then (y + 1, m - 12)
      else if m <? 1 then (y - 1, m + 12)
      else (y, m) in
  let d := Z.min (days_in_month y m) (day dt) in
  replace y m d.

(** [today - relativedelta(months=n)], through [__rsub__]. *)
Definition subtract_months (today : date) (n : Z) : date + failure :=
  add (neg (delta_of_months n)) today.

(** The date [today - relativedelta(months=n)] evaluates to, when it
    does. *)
Definition minus_months (today : date) (n : Z) : option date :=
  match subtract_months today n with
  | inl d => Some d
  | inr _ => None
  end.

End Date.

Abbreviation date := Date.date.

(** ** Property values *)

(** A [datetime.date] or a [datetime.datetime] (date, seconds since
    midnight, optional UTC offset of an aware value). *)
Inductive dt :=
| DDate (d : date)
| DDateTime (d : date) (seconds : Z) (utcoffset : option Z).

(** [isinstance(x, datetime.datetime)] then [x.date()], else [x]. *)
Definition to_date (x : dt) : date :=
  match x with
  | DDate d => d
  | DDateTime d _ _ => d
  end.

(** The values a recurrence rule lists under a sub-field. *)
Inductive rval :=
| RDt (x : dt)
| RText (s : string)
| RInt (n : Z).

(** The value of a property: a [vDDDTypes] wrapper with its [.dt], a
    [vText], or a [vRecur] dictionary from sub-field to list of values. *)
Inductive value :=
| VDt (x : dt)
| VText (s : string)
| VRecur (r : gmap string (list rval)).

(** ** Python strings *)

(** [str.upper] on ASCII text: the letters [a] to [z] are folded, every
    other character is left as it is.  Python folds the letters of every
    script, and some of them to more than one character; on text outside
    ASCII this function is not [str.upper]. *)
Definition upper_ascii (c : ascii) : ascii :=
  let n := nat_of_ascii c in
  if (Nat.leb 97 n && Nat.leb n 122)%bool then ascii_of_nat (n - 32) else c.

Fixpoint upper (s : string) : string :=
  match s with
  | EmptyString => EmptyString
  | String c s' => String (upper_ascii c) (upper s')
  end.

(** [needle in hay] on [str]: [needle] occurs somewhere in [hay]. *)
Fixpoint str_in (needle hay : string) : bool :=
  String.prefix needle hay
  || match hay with
     | EmptyString => false
     | String _ hay' => str_in needle hay'
     end.

(** ** Components *)

#[warnings="-register-all"] Inductive Component :=
  mkComponent (name : string) (props : gmap string value)
              (subcomponents : list Component).

Definition name (c : Component) : string :=
  match c with mkComponent n _ _ => n end.
Definition props (c : Component) : gmap string value :=
  match c with mkComponent _ p _ => p end.
Definition subcomponents (c : Component) : list Component :=
  match c with mkComponent _ _ s => s end.

(** [Calendar()] and [Event()] *)
Definition Calendar : Component := mkComponent "VCALENDAR" ∅ [].
Definition Event : Component := mkComponent "VEVENT" ∅ [].

(** [Component.is_empty]: no property value and no subcomponent. *)
Definition is_empty (c : Component) : bool :=
  match map_to_list (props c), subcomponents c with
  | [], [] => true
  | _, _ => false
  end.

(** [clear] is the dictionary's: it empties the properties and leaves the
    attribute [subcomponents] alone. *)
Definition clear (c : Component) : Component :=
  mkComponent (name c) ∅ (subcomponents c).

(** [Component.add_component] *)
Definition add_component (c sub : Component) : Component :=
  mkComponent (name c) (props c) (subcomponents c ++ [sub]).

(** [Component._walk(nm)]: the component itself when its name matches,
    then the matches below it, in document order. *)
Fixpoint _walk (nm : string) (c : Component) : list Component :=
  match c with
  | mkComponent n _ subs =>
      (if String.eqb n nm then [c] else [])
      ++ (fix walk_all (l : list Component) : list Component :=
            match l with
            | [] => []
            | s :: l' => _walk nm s ++ walk_all l'
            end) subs
  end.

(** [Component.walk(nm)] looks for the upper-cased name. *)
Definition walk (nm : string) (c : Component) : list Component :=
  _walk (upper nm) c.

(** ** Exceptions, results, output *)

Inductive exn :=
| KeyError (key : string)
| IndexError
| TypeError
| AttributeError
| ValueError
| OverflowError
| OSError.

Inductive result (A : Type) :=
| Ok (a : A)
| Raise (e : exn).
Arguments Ok {A} a.
Arguments Raise {A} e.

(** The lines the script prints. *)
Inductive msg :=
| MsgFileSize (fname : string) (size : Z)
| MsgNotFound (fname : string)
| MsgNoPermission (fname : string)
| MsgReading (fname : string)
| MsgRead (count : Z) (fname : string)
| MsgClearFirst
| MsgTriedToGet (eventID : Z) (count : Z)
| MsgFindingAfter (cutoff : date)
| MsgAdding (summary : value).

(** ** Python lists *)

(** [l[i]] on a list: a negative index counts from the end; [None] stands
    for [IndexError]. *)
Definition list_getitem {A : Type} (l : list A) (i : Z) : option A :=
  let j := if i <? 0 then i + Z.of_nat (length l) else i in
  if j <? 0 then None else l !! Z.to_nat j.

(** ** The error monad of a call *)

Definition result_bind {A B : Type} (f : A -> result B) (r : result A)
  : result B :=
  match r with
  | Ok a => f a
  | Raise e => Raise e
  end.

#[global] Instance result_mbind : MBind result := @result_bind.
#[global] Instance result_mret : MRet result := @Ok.

(** ** Class [ical] *)

(** [self._file]: [None], the handle returned by [open], or that handle
    after [close]. *)
Inductive file_state := NoFile | FileOpen | FileClosed.

Record ical := mk_ical {
  _fname : string;
  _verbosity : bool;
  _file : file_state;
  _calendar : Component;
  _events : list Component
}.

Definition set_file (self : ical) (f : file_state) : ical :=
  mk_ical (_fname self) (_verbosity self) f (_calendar self) (_events self).
Definition set_calendar (self : ical) (c : Component) : ical :=
  mk_ical (_fname self) (_verbosity self) (_file self) c (_events self).
Definition set_events (self : ical) (l : list Component) : ical :=
  mk_ical (_fname self) (_verbosity self) (_file self) (_calendar self) l.

Definition __init__ (fname : string) (verbosity : bool) : ical :=
  mk_ical fname verbosity NoFile Calendar [].

(** [reset]: only [self._calendar] is touched.  In Python the cleared
    object is also an entry of [self._events] when the decoded top-level
    component is itself a [VEVENT], and that entry loses its properties
    with it; events are values here, which differs in that case only, and
    never in the number of entries. *)
Definition reset (self : ical) : ical :=
  if negb (is_empty (_calendar self))
  then set_calendar self (clear (_calendar self))
  else self.

(** [Component.add(name, value)] on a component that has no property of
    that name yet: the upper-cased name is bound to the text. *)
Definition add (c : Component) (key : string) (text : string) : Component :=
  mkComponent (name c) (<[upper key := VText text]> (props c))
              (subcomponents c).

Definition createNew (self : ical) : ical :=
  let self := reset self in
  let self := set_calendar self Calendar in
  let self := set_calendar self
                (add (_calendar self) "prodid" "Matty cleaned calendar") in
  set_calendar self (add (_calendar self) "version" "2.0").

Definition getEventCount (self : ical) : Z :=
  Z.of_nat (length (_events self)).

(** What the operating system and the decoder answer to [readFromFile]:
    the size [os.stat] reports, and what [open] followed by
    [Calendar.from_ical] yields ([None] when the decoder raises
    [ValueError]). *)
Inductive os_result (A : Type) :=
| OsOk (a : A)
| FileNotFoundError
| PermissionError
| OtherOSError.
Arguments OsOk {A} a.
Arguments FileNotFoundError {A}.
Arguments PermissionError {A}.
Arguments OtherOSError {A}.

Record file_system := mk_fs {
  stat_size : os_result Z;
  open_rb : os_result (option Component)
}.

(** The [try] block of [readFromFile]: the optional size line, then
    [open]. *)
Definition try_open (fs : file_system) (self : ical)
  : list msg * os_result (option Component) :=
  if _verbosity self then
    match stat_size fs with
    | OsOk size => ([MsgFileSize (_fname self) size], open_rb fs)
    | FileNotFoundError => ([], FileNotFoundError)
    | PermissionError => ([], PermissionError)
    | OtherOSError => ([], OtherOSError)
    end
  else ([], open_rb fs).

Definition readFromFile (fs : file_system) (self : ical)
  : result bool * ical * list msg :=
  if is_empty (_calendar self) then
    match try_open fs self with
    | (out, FileNotFoundError) =>
        (Ok false, self, out ++ [MsgNotFound (_fname self)])
    | (out, PermissionError) =>
        (Ok false, self, out ++ [MsgNoPermission (_fname self)])
    | (out, OtherOSError) => (Raise OSError, self, out)
    | (out, OsOk content) =>
        let self := set_file self FileOpen in
        let out :=
          out ++ (if _verbosity self then [MsgReading (_fname self)] else []) in
        match content with
        | None => (Raise ValueError, self, out)
        | Some cal =>
            let self := set_calendar self cal in
            let self := set_file self FileClosed in
            let self := set_events self (walk "VEVENT" (_calendar self)) in
            (Ok true, self,
             out ++ [MsgRead (getEventCount self) (_fname self)])
        end
    end
  else (Ok false, self, [MsgClearFirst]).

Definition getEvent (self : ical) (eventID : Z)
  : option Component * list msg :=
  if negb (is_empty (_calendar self)) then
    match list_getitem (_events self) eventID with
    | Some e => (Some e, [])
    | None =>
        (None,
         if _verbosity self
         then [MsgTriedToGet eventID (getEventCount self)] else [])
    end
  else (None, []).

Definition addEvent (self : ical) (e : Component) : bool * ical :=
  let self := if is_empty (_calendar self) then createNew self else self in
  let self := set_calendar self (add_component (_calendar self) e) in
  let self := set_events self (_events self ++ [e]) in
  (true, self).

(** ** The recency filter *)

(** The [try] block of the loop body: the value of [recurring].  A missing
    [RRULE] is the [KeyError] the block catches; every other exception
    leaves the block. *)
Definition recurrence (cutoff : date) (event : Component) : result bool :=
  match props event !! "RRULE" with
  | None => Ok false
  | Some (VRecur x) =>
      match x !! "UNTIL" with
      | None => Ok true
      | Some [] => Raise IndexError
      | Some (RDt d :: _) => Ok (Date.ge (to_date d) cutoff)
      | Some (_ :: _) => Raise TypeError
      end
  | Some (VText x) =>
      if negb (str_in "UNTIL" x) then Ok true else Raise TypeError
  | Some (VDt _) => Raise TypeError
  end.

(** [event['DTEND'].dt], cut to its date. *)
Definition dtend (event : Component) : result date :=
  match props event !! "DTEND" with
  | None => Raise (KeyError "DTEND")
  | Some (VDt d) => Ok (to_date d)
  | Some _ => Raise AttributeError
  end.

(** The test [end >= cutoff or recurring] of one pass of the loop. *)
Definition survives (cutoff : date) (event : Component) : result bool :=
  recurring ← recurrence cutoff event;
  end_ ← dtend event;
  mret (Date.ge end_ cutoff || recurring).

(** The [for] loop: [retList] and the output so far are threaded
    through; an exception ends the call with what was printed before. *)
Fixpoint filter_loop (verbosity : bool) (cutoff : date)
    (events retList : list Component) (out : list msg)
  : result (list Component) * list msg :=
  match events with
  | [] => (Ok retList, out)
  | event :: rest =>
      match survives cutoff event with
      | Raise e => (Raise e, out)
      | Ok false => filter_loop verbosity cutoff rest retList out
      | Ok true =>
          if verbosity then
            match props event !! "SUMMARY" with
            | None => (Raise (KeyError "SUMMARY"), out)
            | Some s =>
                filter_loop verbosity cutoff rest (retList ++ [event])
                            (out ++ [MsgAdding s])
            end
          else filter_loop verbosity cutoff rest (retList ++ [event]) out
      end
  end.

(** [today] is [datetime.datetime.now().date()]. *)
Definition findEventsByDateAfter (today : date) (months : Z) (self : ical)
  : result (list Component) * list msg :=
  match Date.subtract_months today months with
  | inr Date.FieldOutOfRange => (Raise ValueError, [])
  | inr Date.IntOverflow => (Raise OverflowError, [])
  | inl cutoff =>
      filter_loop (_verbosity self) cutoff (_events self) []
                  (if _verbosity self then [MsgFindingAfter cutoff] else [])
  end.

(** ** Search by summary *)

(** [srch.upper() in thisEvent['SUMMARY'].upper()], where [thisEvent] is
    what [getEvent] returned. *)
Definition summary_matches (srch : string) (thisEvent : option Component)
  : result bool :=
  match thisEvent with
  | None => Raise TypeError
  | Some e =>
      match props e !! "SUMMARY" with
      | None => Raise (KeyError "SUMMARY")
      | Some (VText s) => Ok (str_in (upper srch) (upper s))
      | Some _ => Raise AttributeError
      end
  end.

(** The [while] loop, [fuel] passes at most; [None] when the fuel runs
    out before the loop ends. *)
Fixpoint summary_loop (fuel : nat) (self : ical) (srch : string)
    (ret : Z * option Component) (startInx : Z) (out : list msg)
  : option (result (Z * option Component) * list msg) :=
  match fuel with
  | O => None
  | S fuel' =>
      let '(thisEvent, printed) := getEvent self startInx in
      let out := out ++ printed in
      match summary_matches srch thisEvent with
      | Raise e => Some (Raise e, out)
      | Ok true => Some (Ok (startInx, thisEvent), out)
      | Ok false =>
          let startInx := startInx + 1 in
          if getEventCount self <=? startInx then Some (Ok ret, out)
          else summary_loop fuel' self srch ret startInx out
      end
  end.

(** The passes the loop can need: one, plus one for each index between
    [startInx] and the end of the list. *)
Definition summary_fuel (self : ical) (startInx : Z) : nat :=
  S (Z.to_nat (getEventCount self - startInx)).

Definition findEventBySummary (self : ical) (srch : string) (startInx : Z)
  : option (result (Z * option Component) * list msg) :=
  let ret := (startInx, None) in
  if negb (is_empty (_calendar self))
  then summary_loop (summary_fuel self startInx) self srch ret startInx []
  else Some (Ok ret, []).

(** ** Stripping the extension properties *)

(** The loop over the names of [event]: a name without an occurrence of
    ["X-"] is bound in [retEvent] to the value it has in [event]. *)
Definition stripApplicationSpecificSubcomponents (event : Component)
  : Component :=
  let retEvent := Event in
  mkComponent (name retEvent)
    (map_fold
       (fun subComponent v acc =>
          if negb (str_in "X-" subComponent)
          then <[subComponent := v]> acc else acc)
       (props retEvent) (props event))
    (subcomponents retEvent).

(** ** Writing the calendar *)

(** What the operating system and the encoder answer to [writeToFile]:
    all went well, [open] raised, or [to_ical] or [write] raised after the
    file was opened for writing. *)
Inductive write_result := WriteOk | OpenFails | FailsAfterOpen.

(** What became of the output file: not touched, opened for writing and
    left without the calendar, or holding the encoding of a calendar. *)
Inductive file_effect :=
| Untouched
| Clobbered
| Holds (c : Component).

(** The lines of the whole script: those of the earlier methods, and
    those of [writeToFile] and of the main block. *)
Inductive line :=
| Line (m : msg)
| LineWrote (count : Z) (fname : string)
| LineException
| LineErrorLoading.

Definition writeToFile (w : write_result) (self : ical)
  : bool * file_effect * list line :=
  if negb (is_empty (_calendar self)) then
    match w with
    | WriteOk =>
        (true, Holds (_calendar self),
         [LineWrote (getEventCount self) (_fname self)])
    | OpenFails => (false, Untouched, [LineException])
    | FailsAfterOpen => (false, Clobbered, [LineException])
    end
  else (false, Untouched, []).

(** ** The main block *)

(** The parsed command line. *)
Record arguments := mk_args {
  infile : string;
  outfile : string;
  verbose : bool;
  stripAppSpecific : bool;
  monthsBefore : Z
}.

(** How the process ends: exit status 0, [sys.exit(1)], or an exception
    nobody catches. *)
Inductive exit :=
| ExitOk
| ExitStatus1
| Traceback (e : exn).

(** The body of the loop over the surviving events. *)
Definition add_one (strip : bool) (outcal : ical) (event : Component)
  : ical :=
  if strip
  then snd (addEvent outcal (stripApplicationSpecificSubcomponents event))
  else snd (addEvent outcal event).

Definition add_all (strip : bool) (outcal : ical) (kept : list Component)
  : ical :=
  fold_left (add_one strip) kept outcal.

Definition main (fs : file_system) (today : date) (w : write_result)
    (args : arguments) : exit * file_effect * list line :=
  let incal := __init__ (infile args) (verbose args) in
  match readFromFile fs incal with
  | (Raise e, _, out) => (Traceback e, Untouched, map Line out)
  | (Ok false, _, out) =>
      (ExitStatus1, Untouched, map Line out ++ [LineErrorLoading])
  | (Ok true, incal, out) =>
      let outcal := __init__ (outfile args) (verbose args) in
      let outcal := createNew outcal in
      match findEventsByDateAfter today (monthsBefore args) incal with
      | (Raise e, out') => (Traceback e, Untouched, map Line (out ++ out'))
      | (Ok kept, out') =>
          let outcal := add_all (stripAppSpecific args) outcal kept in
          let '(_, effect, out'') := writeToFile w outcal in
          (ExitOk, effect, map Line (out ++ out') ++ out'')
      end
  end.

(** * Specification-side definitions *)

(** ** Survival in the recency filter *)

(** The survival predicate in the words of the specification: the end
    date has reached the cutoff, or the recurrence is open-ended, or the
    recurrence runs until the cutoff or later. *)
Definition end_reached (cutoff : date) (e : Component) : bool :=
  match props e !! "DTEND" with
  | Some (VDt d) => Date.ge (to_date d) cutoff
  | _ => false
  end.

Definition open_ended (e : Component) : bool :=
  match props e !! "RRULE" with
  | Some (VRecur r) =>
      match r !! "UNTIL" with None => true | Some _ => false end
  | _ => false
  end.

Definition until_reached (cutoff : date) (e : Component) : bool :=
  match props e !! "RRULE" with
  | Some (VRecur r) =>
      match r !! "UNTIL" with
      | Some (RDt d :: _) => Date.ge (to_date d) cutoff
      | _ => false
      end
  | _ => false
  end.

Definition qualifies (cutoff : date) (e : Component) : bool :=
  end_reached cutoff e || open_ended e || until_reached cutoff e.

(** The records the filter is written for: [DTEND] holds a date or a
    date-time; [RRULE], when present, is a recurrence rule whose [UNTIL],
    when present, starts with a date or a date-time. *)
Definition has_dtend (e : Component) : bool :=
  match props e !! "DTEND" with
  | Some (VDt _) => true
  | _ => false
  end.

Definition rrule_well_formed (e : Component) : bool :=
  match props e !! "RRULE" with
  | None => true
  | Some (VRecur r) =>
      match r !! "UNTIL" with
      | None | Some (RDt _ :: _) => true
      | Some _ => false
      end
  | Some _ => false
  end.

Definition has_summary (e : Component) : bool :=
  match props e !! "SUMMARY" with Some _ => true | None => false end.

(** A record the loop passes without an exception: well-formed, and able
    to print its summary when the container is verbose and the record is
    kept. *)
Definition filterable (verbosity : bool) (cutoff : date) (e : Component)
  : bool :=
  has_dtend e && rrule_well_formed e
  && (negb verbosity || negb (qualifies cutoff e) || has_summary e).

(** ** First hit of a summary search *)

(** A record whose [SUMMARY] is a text, and the test of the search on
    it. *)
Definition has_text_summary (e : Component) : bool :=
  match props e !! "SUMMARY" with Some (VText _) => true | _ => false end.

Definition summary_hit (srch : string) (e : Component) : bool :=
  match props e !! "SUMMARY" with
  | Some (VText s) => str_in (upper srch) (upper s)
  | _ => false
  end.

(** Offset and record of the first hit in a list. *)
Fixpoint first_hit (srch : string) (l : list Component)
  : option (Z * Component) :=
  match l with
  | [] => None
  | e :: l' =>
      if summary_hit srch e then Some (0, e)
      else match first_hit srch l' with
           | Some (k, e') => Some (k + 1, e')
           | None => None
           end
  end.

(** * Example data *)

(** The clock of the examples: 4 November 2026, so that twelve months
    back is 4 November 2025. *)
Definition today0 : date := Date.mkDate 2026 11 4.
Definition cutoff0 : date := Date.mkDate 2025 11 4.

Definition event_of (summary : string) (fields : gmap string value)
  : Component :=
  mkComponent "VEVENT" (<["SUMMARY" := VText summary]> fields) [].

Definition rule (l : list (string * list rval)) : value :=
  VRecur (list_to_map l).

(** (A) ended 400 days ago; (B) ended 10 days ago; (C) open-ended
    recurrence whose first occurrence ended two years ago; (D) recurrence
    that ran until last week, first occurrence long past. *)
Definition eventA : Component :=
  event_of "A" {[ "DTEND" := VDt (DDate (Date.mkDate 2025 9 30)) ]}.
Definition eventB : Component :=
  event_of "B" {[ "DTEND" := VDt (DDateTime (Date.mkDate 2026 10 25)
                                            64800 (Some 3600)) ]}.
Definition eventC : Component :=
  event_of "C" {[ "DTEND" := VDt (DDate (Date.mkDate 2024 11 4));
                  "RRULE" := rule [("FREQ", [RText "WEEKLY"])] ]}.
Definition eventD : Component :=
  event_of "D"
    {[ "DTEND" := VDt (DDate (Date.mkDate 2020 1 7));
       "RRULE" := rule [("FREQ", [RText "MONTHLY"]);
                        ("UNTIL", [RDt (DDateTime (Date.mkDate 2026 10 28)
                                                  0 (Some 0))])] ]}.

(** A recurrence that stopped on 31 October 2025, before the cutoff,
    while the first occurrence ends on 20 November 2025, after it. *)
Definition eventE : Component :=
  event_of "E"
    {[ "DTEND" := VDt (DDate (Date.mkDate 2025 11 20));
       "RRULE" := rule [("FREQ", [RText "WEEKLY"]);
                        ("UNTIL", [RDt (DDate (Date.mkDate 2025 10 31))])] ]}.

(** A record with no [DTEND] between two records that qualify. *)
Definition eventNoEnd : Component :=
  event_of "all-day"
    {[ "DTSTART" := VDt (DDate (Date.mkDate 2026 10 30)) ]}.

(** An event with a summary, an end date, one vendor extension and one
    registered-style property whose name merely contains the marker. *)
Definition meeting : Component :=
  mkComponent "VEVENT"
    {[ "SUMMARY" := VText "Budget review";
       "DTEND" := VDt (DDate (Date.mkDate 2026 10 1));
       "X-APPLE-TRAVEL-TIME" := VText "PT15M";
       "MAX-ATTENDEES" := VText "12" ]}
    [].

Definition container_of (verbosity : bool) (events : list Component)
  : ical :=
  mk_ical "in.ics" verbosity FileClosed
    (mkComponent "VCALENDAR" {[ "VERSION" := VText "2.0" ]} events)
    events.

Definition standups : ical :=
  container_of false
    [event_of "Daily Standup" ∅; event_of "1:1" ∅;
     event_of "Weekly Standup" ∅].

(** A calendar file with the four events of the examples. *)
Definition decoded0 : Component :=
  mkComponent "VCALENDAR" {[ "VERSION" := VText "2.0" ]}
    [eventA; eventB; eventC; eventD].

Definition fs0 : file_system := mk_fs (OsOk 1024) (OsOk (Some decoded0)).

(** The state after loading a file, starting a new calendar and clearing
    it: the calendar is empty, the event list still holds the loaded
    events. *)
Definition stale : ical :=
  reset (createNew (snd (fst (readFromFile fs0 (__init__ "in.ics" false))))).

(** ** The events of a decoded document *)




(** * More example data *)

(** The container right after the load of the example file. *)
Definition loaded : ical :=
  snd (fst (readFromFile fs0 (__init__ "in.ics" false))).





(** * Definitions for the further properties *)

(** The calendar [createNew] leaves in the container. *)
Definition new_calendar : Component :=
  mkComponent "VCALENDAR"
    {[ "PRODID" := VText "Matty cleaned calendar";
       "VERSION" := VText "2.0" ]}
    [].

(** What the loop of the main block hands to [addEvent]. *)
Definition delivered (strip : bool) (event : Component) : Component :=
  if strip then stripApplicationSpecificSubcomponents event else event.

(** The loop body answered [True] for the record. *)
Definition survived (cutoff : date) (e : Component) : bool :=
  match survives cutoff e with
  | Ok true => true
  | _ => false
  end.

(** [e[k] = v] on a component. *)
Definition set_prop (e : Component) (k : string) (v : value) : Component :=
  mkComponent (name e) (<[k := v]> (props e)) (subcomponents e).

(** A date the [datetime] module accepts as far as the month goes. *)
Definition month_in_range (d : date) : Prop :=
  1 <= Date.month d <= 12.

(** The position of a month on the time line. *)
Definition month_index (d : date) : Z :=
  12 * Date.year d + Date.month d.

(** An event without [SUMMARY], between two that have one. *)
Definition eventNoSummary : Component :=
  mkComponent "VEVENT"
    {[ "DTEND" := VDt (DDate (Date.mkDate 2026 10 30)) ]} [].

Definition agenda : ical :=
  container_of false
    [event_of "1:1" ∅; eventNoSummary; event_of "Weekly Standup" ∅].

(** An event that carries vendor extensions only. *)
Definition eventVendorOnly : Component :=
  mkComponent "VEVENT"
    {[ "X-APPLE-TRAVEL-TIME" := VText "PT15M";
       "X-MICROSOFT-CDO-BUSYSTATUS" := VText "BUSY" ]}
    [].

(** The command line [-i in.ics -o out.ics -s], with the default of
    twelve months. *)
Definition args0 : arguments := mk_args "in.ics" "out.ics" false true 12.

(** The summary line printed for a kept record. *)
Definition adding_line (e : Component) (m : msg) : Prop :=
  exists s, props e !! "SUMMARY" = Some s /\ m = MsgAdding s.

(** * Properties *)

(** ** Extension stripper *)

(** What [stripApplicationSpecificSubcomponents] binds under each name. *)
Lemma strip_lookup (event : Component) (k : string) :
  props (stripApplicationSpecificSubcomponents event) !! k
  = if str_in "X-" k then None else props event !! k.
Proof.
  unfold stripApplicationSpecificSubcomponents; simpl.
  generalize (props event); intros m; revert k.
  apply (map_fold_weak_ind
           (fun (acc m0 : gmap string value) =>
              forall k, acc !! k = if str_in "X-" k then None else m0 !! k)).
  - intros k. rewrite !lookup_empty. by destruct (str_in "X-" k).
  - intros i x m0 acc Hfresh IH k.
    destruct (decide (k = i)) as [->|Hne].
    + destruct (str_in "X-" i) eqn:Hi; simpl.
      * rewrite IH, Hi. done.
      * by rewrite !lookup_insert_eq.
    + destruct (str_in "X-" i); simpl.
      * rewrite IH. by rewrite lookup_insert_ne.
      * rewrite !lookup_insert_ne by done. apply IH.
Qed.

Lemma str_in_prefix (needle hay : string) :
  String.prefix needle hay = true -> str_in needle hay = true.
Proof. intros H. destruct hay; cbn [str_in]; by rewrite H. Qed.

(** Every property whose name has no ["X-"] in it is kept with its
    value; every property whose name begins with ["X-"] is removed. *)
Lemma strip_keeps_unmarked (event : Component) (k : string) :
  str_in "X-" k = false ->
  props (stripApplicationSpecificSubcomponents event) !! k
  = props event !! k.
Proof. intros H. by rewrite strip_lookup, H. Qed.

Lemma strip_removes_extensions (event : Component) (k : string) :
  String.prefix "X-" k = true ->
  props (stripApplicationSpecificSubcomponents event) !! k = None.
Proof. intros H. by rewrite strip_lookup, (str_in_prefix _ _ H). Qed.

Lemma strip_shape (event : Component) :
  name (stripApplicationSpecificSubcomponents event) = "VEVENT"
  /\ subcomponents (stripApplicationSpecificSubcomponents event) = [].
Proof. split; reflexivity. Qed.

Lemma Component_eq (c1 c2 : Component) :
  name c1 = name c2 -> props c1 = props c2 ->
  subcomponents c1 = subcomponents c2 -> c1 = c2.
Proof. destruct c1, c2; simpl; intros; subst; reflexivity. Qed.

(** C6: stripping is idempotent, [strip (strip e) = strip e]. *)
Theorem strip_idempotent (e : Component) :
  stripApplicationSpecificSubcomponents
    (stripApplicationSpecificSubcomponents e)
  = stripApplicationSpecificSubcomponents e.
Proof.
  apply Component_eq; try reflexivity.
  apply map_eq; intros k.
  rewrite !strip_lookup.
  destruct (str_in "X-" k); reflexivity.
Qed.

(** C4, at the failing input: [MAX-ATTENDEES] does not begin with the
    marker ["X-"], it is a property of [meeting], and stripping removes it
    together with the vendor extension; the membership test of the loop
    looks for the marker anywhere in the name. *)
Theorem strip_removes_name_containing_marker :
  String.prefix "X-" "MAX-ATTENDEES" = false
  /\ props meeting !! "MAX-ATTENDEES" = Some (VText "12")
  /\ props (stripApplicationSpecificSubcomponents meeting)
       !! "MAX-ATTENDEES" = None
  /\ stripApplicationSpecificSubcomponents meeting
     = mkComponent "VEVENT"
         {[ "SUMMARY" := VText "Budget review";
            "DTEND" := VDt (DDate (Date.mkDate 2026 10 1)) ]}
         [].
Proof. repeat split; vm_compute; reflexivity. Qed.

(** ** Recency filter *)

Lemma subtract_months_inl (today : date) (n : Z) (c : date) :
  Date.minus_months today n = Some c <-> Date.subtract_months today n = inl c.
Proof.
  unfold Date.minus_months.
  destruct (Date.subtract_months today n); split; congruence.
Qed.

Section FilterLoop.

Variable verbosity : bool.
Variable cutoff : date.

Lemma survives_qualifies (e : Component) :
  has_dtend e = true -> rrule_well_formed e = true ->
  survives cutoff e = Ok (qualifies cutoff e).
Proof.
  unfold has_dtend, rrule_well_formed, survives, recurrence, dtend,
    qualifies, end_reached, open_ended, until_reached.
  intros Hd Hr.
  destruct (props e !! "DTEND") as [[d| |]|]; try discriminate.
  destruct (props e !! "RRULE") as [[|s|r]|]; try discriminate; simpl.
  - destruct (r !! "UNTIL") as [[|[x| |] l]|]; try discriminate; simpl.
    + by rewrite orb_false_r.
    + by rewrite orb_true_r.
  - by rewrite !orb_false_r.
Qed.

(** The loop appends the qualifying records to [retList], in order. *)
Lemma filter_loop_filter (events : list Component) :
  Forall (fun e => filterable verbosity cutoff e = true) events ->
  forall retList out,
    fst (filter_loop verbosity cutoff events retList out)
    = Ok (retList ++ List.filter (qualifies cutoff) events).
Proof.
  induction 1 as [|e events He _ IH]; intros retList out; simpl.
  - by rewrite app_nil_r.
  - unfold filterable in He.
    apply andb_prop in He as [He Hs]. apply andb_prop in He as [Hd Hr].
    rewrite (survives_qualifies _ Hd Hr).
    destruct (qualifies cutoff e) eqn:Hq.
    + destruct verbosity; simpl in Hs.
      * unfold has_summary in Hs.
        destruct (props e !! "SUMMARY"); [|discriminate].
        rewrite IH, <- app_assoc. reflexivity.
      * rewrite IH, <- app_assoc. reflexivity.
    + apply IH.
Qed.

(** A record without [DTEND] raises in the loop body, whatever else it
    holds. *)
Lemma survives_without_dtend (e : Component) :
  props e !! "DTEND" = None -> exists x, survives cutoff e = Raise x.
Proof.
  intros Hd. unfold survives, dtend. rewrite Hd.
  destruct (recurrence cutoff e) as [b|x]; simpl; eauto.
Qed.

(** One raising record ends the loop with an exception, wherever it
    stands in the list. *)
Lemma filter_loop_raises (e : Component) (events : list Component) :
  In e events -> (exists x, survives cutoff e = Raise x) ->
  forall retList out,
    exists x, fst (filter_loop verbosity cutoff events retList out) = Raise x.
Proof.
  intros Hin Hraise.
  induction events as [|e' events IH]; intros retList out; [destruct Hin|].
  simpl. destruct (survives cutoff e') as [[|]|x] eqn:He'.
  - assert (Hrest : In e events).
    { destruct Hin as [->|]; [|done].
      destruct Hraise as [x Hx]. congruence. }
    destruct verbosity; [|by apply IH].
    destruct (props e' !! "SUMMARY"); [by apply IH|simpl; eauto].
  - apply IH. destruct Hin as [->|]; [|done].
    destruct Hraise as [x Hx]. congruence.
  - simpl; eauto.
Qed.

(** The exception is the [KeyError] of the missing field when the records
    before the defective one pass and its own [RRULE] is well-formed. *)
Lemma missing_dtend_keyerror (pre post : list Component) (e : Component) :
  Forall (fun e => filterable verbosity cutoff e = true) pre ->
  rrule_well_formed e = true -> props e !! "DTEND" = None ->
  forall retList out,
    fst (filter_loop verbosity cutoff (pre ++ e :: post) retList out)
    = Raise (KeyError "DTEND").
Proof.
  intros Hpre Hr Hd. induction Hpre as [|e' pre He' _ IH]; intros retList out.
  - simpl. unfold survives, dtend, recurrence. rewrite Hd.
    unfold rrule_well_formed in Hr.
    destruct (props e !! "RRULE") as [[|s|r]|]; try discriminate; [|done].
    destruct (r !! "UNTIL") as [[|[x| |] l]|]; try discriminate; done.
  - simpl. unfold filterable in He'.
    apply andb_prop in He' as [He' Hs]. apply andb_prop in He' as [Hd' Hr'].
    rewrite (survives_qualifies _ Hd' Hr').
    destruct (qualifies cutoff e'); [|apply IH].
    destruct verbosity; simpl in Hs; [|apply IH].
    unfold has_summary in Hs.
    destruct (props e' !! "SUMMARY"); [apply IH|discriminate].
Qed.

End FilterLoop.




(** C2 fails as stated: [eventE] has [RRULE.UNTIL] before the cutoff and
    still survives, through its [DTEND]. *)
Lemma until_before_cutoff_still_survives :
  (exists r,
      props eventE !! "RRULE" = Some (VRecur r)
      /\ r !! "UNTIL" = Some [RDt (DDate (Date.mkDate 2025 10 31))])
  /\ Date.minus_months today0 12 = Some cutoff0
  /\ Date.ge (Date.mkDate 2025 10 31) cutoff0 = false
  /\ findEventsByDateAfter today0 12 (container_of false [eventE])
     = (Ok [eventE], []).
Proof.
  split; [eexists; split|]; repeat split; vm_compute; reflexivity.
Qed.

(** C2, amended: a record whose [RRULE] has [UNTIL] starting with [d]
    survives exactly when [d] or its own [DTEND], each cut to a date, has
    reached the cutoff; [d >= cutoff] suffices whatever [DTEND] is. *)
Theorem until_or_dtend_decides
    (today : date) (months : Z) (cutoff : date) (self : ical)
    (e : Component) (r : gmap string (list rval)) (d : dt)
    (rest : list rval) :
  Date.minus_months today months = Some cutoff ->
  Forall (fun e => filterable (_verbosity self) cutoff e = true)
         (_events self) ->
  In e (_events self) ->
  props e !! "RRULE" = Some (VRecur r) ->
  r !! "UNTIL" = Some (RDt d :: rest) ->
  survives cutoff e = Ok (Date.ge (to_date d) cutoff || end_reached cutoff e)
  /\ exists kept,
      fst (findEventsByDateAfter today months self) = Ok kept
      /\ (In e kept <->
          Date.ge (to_date d) cutoff = true \/ end_reached cutoff e = true).
Proof.
  intros Hc Hall Hin Hr Hu.
  assert (Hq : qualifies cutoff e
               = Date.ge (to_date d) cutoff || end_reached cutoff e).
  { unfold qualifies, open_ended, until_reached. rewrite Hr, Hu.
    rewrite orb_false_r. apply orb_comm. }
  split.
  - rewrite Forall_forall in Hall.
    specialize (Hall e (proj2 (list_elem_of_In _ _) Hin)).
    unfold filterable in Hall.
    apply andb_prop in Hall as [Hall _]. apply andb_prop in Hall as [Hd Hw].
    rewrite (survives_qualifies _ _ Hd Hw). by rewrite Hq.
  - eexists. split.
    + unfold findEventsByDateAfter.
      rewrite (proj1 (subtract_months_inl _ _ _) Hc).
      rewrite (filter_loop_filter _ _ _ Hall). reflexivity.
    + simpl. rewrite filter_In, Hq, orb_true_iff. tauto.
Qed.

Lemma until_or_dtend_decides_witness :
  survives cutoff0 eventD = Ok true
  /\ exists kept,
      fst (findEventsByDateAfter today0 12
             (container_of true [eventA; eventD])) = Ok kept
      /\ (In eventD kept <->
          Date.ge (Date.mkDate 2026 10 28) cutoff0 = true
          \/ end_reached cutoff0 eventD = true).
Proof.
  refine (until_or_dtend_decides today0 12 cutoff0
            (container_of true [eventA; eventD]) eventD
            (list_to_map
               [("FREQ", [RText "MONTHLY"]);
                ("UNTIL", [RDt (DDateTime (Date.mkDate 2026 10 28)
                                          0 (Some 0))])])
            (DDateTime (Date.mkDate 2026 10 28) 0 (Some 0)) []
            _ _ _ _ _).
  - vm_compute; reflexivity.
  - cbn [_events _verbosity container_of].
    repeat (constructor; [vm_compute; reflexivity|]). constructor.
  - right; left; reflexivity.
  - vm_compute; reflexivity.
  - vm_compute; reflexivity.
Defined.

(** C3 fails as stated: with [eventNoEnd] in the batch the call raises
    [KeyError] and returns no list, although [eventB] and [eventC] both
    qualify and [eventB] was already evaluated. *)
Lemma missing_dtend_loses_qualifying_records :
  props eventNoEnd !! "DTEND" = None
  /\ survives cutoff0 eventB = Ok true
  /\ survives cutoff0 eventC = Ok true
  /\ findEventsByDateAfter today0 12
       (container_of false [eventB; eventNoEnd; eventC])
     = (Raise (KeyError "DTEND"), []).
Proof. repeat split; vm_compute; reflexivity. Qed.

(** C3, amended: a record without [DTEND] aborts the whole batch;
    [findEventsByDateAfter] raises and returns no list, whatever the
    other records are. *)
Theorem missing_dtend_aborts_batch
    (today : date) (months : Z) (self : ical) (e : Component) :
  In e (_events self) -> props e !! "DTEND" = None ->
  exists x, fst (findEventsByDateAfter today months self) = Raise x.
Proof.
  intros Hin Hd. unfold findEventsByDateAfter.
  destruct (Date.subtract_months today months) as [cutoff|[|]];
    [|simpl; eauto..].
  apply (filter_loop_raises _ cutoff e); [done|].
  by apply survives_without_dtend.
Qed.

Lemma missing_dtend_aborts_batch_witness :
  exists x,
    fst (findEventsByDateAfter today0 12
           (container_of true [eventB; eventNoEnd; eventC])) = Raise x.
Proof.
  apply (missing_dtend_aborts_batch today0 12
           (container_of true [eventB; eventNoEnd; eventC]) eventNoEnd).
  - right; left; reflexivity.
  - vm_compute; reflexivity.
Defined.

(** ** Calendar container *)

Lemma reset_events (self : ical) : _events (reset self) = _events self.
Proof. unfold reset. by destruct (negb (is_empty (_calendar self))). Qed.

Lemma clear_clear (c : Component) : clear (clear c) = clear c.
Proof. reflexivity. Qed.

Lemma reset_idempotent (self : ical) : reset (reset self) = reset self.
Proof.
  unfold reset.
  destruct (negb (is_empty (_calendar self))) eqn:Hne; simpl.
  - destruct (negb (is_empty (clear (_calendar self)))); reflexivity.
  - by rewrite Hne.
Qed.

(** C7, at the failing input: [reset] never touches the event list, so
    after one [addEvent] on a new container and a [reset] the count is
    still 1. *)
Theorem reset_keeps_event_list :
  (forall self, getEventCount (reset self) = getEventCount self)
  /\ getEventCount
       (reset (snd (addEvent (__init__ "out.ics" false) eventB))) = 1.
Proof.
  split.
  - intros self. unfold getEventCount. by rewrite reset_events.
  - vm_compute; reflexivity.
Qed.


(** On a calendar whose subcomponents are events without components of
    their own, the events walked are those subcomponents. *)
Lemma walk_flat (p : gmap string value) (events : list Component) :
  Forall (fun e => name e = "VEVENT" /\ subcomponents e = []) events ->
  walk "VEVENT" (mkComponent "VCALENDAR" p events) = events.
Proof.
  intros Hflat. unfold walk. simpl.
  induction Hflat as [|e events [Hn Hs] _ IH]; [done|].
  destruct e as [n q subs]; simpl in Hn, Hs; subst. simpl.
  f_equal. exact IH.
Qed.






(** ** Lookup by index *)

Lemma list_getitem_nonneg {A : Type} (l : list A) (i : Z) :
  0 <= i -> list_getitem l i = l !! Z.to_nat i.
Proof.
  intros Hi. unfold list_getitem.
  destruct (i <? 0) eqn:Hneg; [lia|]. by rewrite Hneg.
Qed.

Lemma list_getitem_from_end {A : Type} (l : list A) (i : Z) :
  - Z.of_nat (length l) <= i < 0 ->
  list_getitem l i = l !! Z.to_nat (i + Z.of_nat (length l)).
Proof.
  intros Hi. unfold list_getitem.
  destruct (i <? 0) eqn:Hneg; [|lia].
  destruct (i + Z.of_nat (length l) <? 0) eqn:Hj; [lia|done].
Qed.

Lemma list_getitem_out_of_range {A : Type} (l : list A) (i : Z) :
  Z.of_nat (length l) <= i \/ i < - Z.of_nat (length l) ->
  list_getitem l i = None.
Proof.
  intros Hi. unfold list_getitem.
  destruct (i <? 0) eqn:Hneg.
  - destruct (i + Z.of_nat (length l) <? 0) eqn:Hj; [done|lia].
  - rewrite Hneg. apply lookup_ge_None. lia.
Qed.

(** C9 fails as stated, twice: index [-1] is not rejected but answers the
    last event, and a valid index answers [None] when the calendar is
    empty. *)
Lemma getEvent_negative_index_and_empty_calendar :
  (getEventCount (container_of false [eventA; eventB]) = 2
   /\ fst (getEvent (container_of false [eventA; eventB]) (-1))
      = Some eventB)
  /\ (getEventCount stale = 4 /\ fst (getEvent stale 0) = None).
Proof. repeat split; vm_compute; reflexivity. Qed.

(** C9, amended: with [n] events and a calendar that is not empty,
    [getEvent i] answers the event at position [i] for [0 <= i < n] and
    the event at position [n + i] for [-n <= i < 0]; it answers [None]
    for [i >= n], for [i < -n], and for every [i] when the calendar is
    empty.  No case raises. *)
Theorem getEvent_by_index (self : ical) (i : Z) :
  (is_empty (_calendar self) = false ->
   0 <= i < getEventCount self ->
   exists e, _events self !! Z.to_nat i = Some e
             /\ fst (getEvent self i) = Some e)
  /\ (is_empty (_calendar self) = false ->
      - getEventCount self <= i < 0 ->
      exists e, _events self !! Z.to_nat (getEventCount self + i) = Some e
                /\ fst (getEvent self i) = Some e)
  /\ (is_empty (_calendar self) = true
      \/ getEventCount self <= i \/ i < - getEventCount self ->
      fst (getEvent self i) = None).
Proof.
  unfold getEvent, getEventCount. repeat split.
  - intros -> Hi; simpl. rewrite list_getitem_nonneg by lia.
    destruct (lookup_lt_is_Some_2 (_events self) (Z.to_nat i)) as [e He];
      [lia|].
    exists e. by rewrite He.
  - intros -> Hi; simpl. rewrite list_getitem_from_end by lia.
    rewrite (Z.add_comm i).
    destruct (lookup_lt_is_Some_2 (_events self)
                (Z.to_nat (Z.of_nat (length (_events self)) + i)))
      as [e He]; [lia|].
    exists e. rewrite He. done.
  - intros [->|Hi]; [done|].
    destruct (negb (is_empty (_calendar self))); [|done].
    rewrite list_getitem_out_of_range by lia. done.
Qed.

Lemma getEvent_by_index_witness :
  fst (getEvent (container_of true [eventA; eventB]) 1) = Some eventB
  /\ fst (getEvent (container_of true [eventA; eventB]) (-2)) = Some eventA
  /\ fst (getEvent (container_of true [eventA; eventB]) 2) = None.
Proof.
  assert (Hcal : is_empty (_calendar (container_of true [eventA; eventB]))
                 = false) by (vm_compute; reflexivity).
  assert (Hn : getEventCount (container_of true [eventA; eventB]) = 2)
    by reflexivity.
  split; [|split].
  - pose proof (proj1 (getEvent_by_index
                         (container_of true [eventA; eventB]) 1) Hcal)
      as H1.
    rewrite Hn in H1. destruct H1 as (e & He & Hget); [lia|].
    rewrite Hget, <- He. reflexivity.
  - pose proof (proj1 (proj2 (getEvent_by_index
                                (container_of true [eventA; eventB]) (-2)))
                  Hcal) as H2.
    rewrite Hn in H2. destruct H2 as (e & He & Hget); [lia|].
    rewrite Hget, <- He. reflexivity.
  - apply (proj2 (proj2 (getEvent_by_index
                           (container_of true [eventA; eventB]) 2))).
    right; left. rewrite Hn. lia.
Defined.

Lemma is_empty_clear (c : Component) :
  is_empty (clear c) = true <-> subcomponents c = [].
Proof.
  unfold is_empty, clear; cbn [props subcomponents].
  rewrite map_to_list_empty. by destruct (subcomponents c).
Qed.

Lemma is_empty_no_subcomponents (c : Component) :
  is_empty c = true -> subcomponents c = [].
Proof.
  unfold is_empty. destruct (map_to_list (props c)); [|discriminate].
  by destruct (subcomponents c).
Qed.

Lemma getEvent_none_everywhere (self : ical) :
  (forall i, fst (getEvent self i) = None)
  <-> is_empty (_calendar self) = true \/ _events self = [].
Proof.
  unfold getEvent. split.
  - intros Hnone. destruct (is_empty (_calendar self)); [by left|right].
    destruct (_events self) as [|e l] eqn:Hev; [done|].
    specialize (Hnone 0). simpl in Hnone. discriminate.
  - intros [-> | ->] i; [done|].
    destruct (negb (is_empty (_calendar self))); [|done].
    by rewrite list_getitem_out_of_range by (simpl; clear; lia).
Qed.

(** C10 fails as stated for the states it names: after [reset] of a
    loaded container the calendar still has its subcomponents and
    [getEvent] answers the first event; after [createNew] the calendar
    holds no component at all and [getEvent] answers it too. *)
Lemma getEvent_answers_after_reset_and_createNew :
  (is_empty (_calendar (reset loaded)) = false
   /\ fst (getEvent (reset loaded) 0) = Some eventA)
  /\ (subcomponents (_calendar (createNew loaded)) = []
      /\ fst (getEvent (createNew loaded) 0) = Some eventA).
Proof. repeat split; vm_compute; reflexivity. Qed.

(** C10, amended: [getEvent] answers [None] for every index exactly when
    the calendar is empty in the sense of [is_empty], no property and no
    subcomponent, or the event list is empty; on an empty calendar it
    does so even if the event list holds records and the count is
    positive, and it prints nothing.  The calendar is empty after
    construction.  After [reset] it is empty exactly when it had no
    subcomponent, so [getEvent] then answers [None] for every index
    exactly when the calendar had no subcomponent or the list is
    empty. *)
Theorem getEvent_gated_on_is_empty (self : ical) :
  ((forall i, fst (getEvent self i) = None)
   <-> is_empty (_calendar self) = true \/ _events self = [])
  /\ (is_empty (_calendar self) = true ->
      forall i, getEvent self i = (None, []))
  /\ (forall fname verbosity i,
        getEvent (__init__ fname verbosity) i = (None, []))
  /\ (is_empty (_calendar (reset self)) = true
      <-> subcomponents (_calendar self) = [])
  /\ ((forall i, fst (getEvent (reset self) i) = None)
      <-> subcomponents (_calendar self) = [] \/ _events self = []).
Proof.
  assert (Hreset : is_empty (_calendar (reset self)) = true
                   <-> subcomponents (_calendar self) = []).
  { unfold reset. destruct (is_empty (_calendar self)) eqn:He; simpl.
    - rewrite He. split; [intros _; by apply is_empty_no_subcomponents|done].
    - apply is_empty_clear. }
  split; [apply getEvent_none_everywhere|]. split.
  { intros He i. unfold getEvent. by rewrite He. }
  split; [done|]. split; [exact Hreset|].
  rewrite getEvent_none_everywhere, reset_events, Hreset. done.
Qed.

Lemma getEvent_gated_on_is_empty_witness :
  _events stale = [eventA; eventB; eventC; eventD]
  /\ getEventCount stale = 4
  /\ getEvent stale 2 = (None, []).
Proof.
  split; [vm_compute; reflexivity|]. split; [vm_compute; reflexivity|].
  apply (proj1 (proj2 (getEvent_gated_on_is_empty stale))).
  vm_compute; reflexivity.
Defined.

(** ** Search by summary *)

(** The fuel of [findEventBySummary] is enough: the loop always ends. *)
Lemma summary_loop_ends (self : ical) (srch : string)
    (ret : Z * option Component) (fuel : nat) :
  forall (startInx : Z) (out : list msg),
    (Z.to_nat (getEventCount self - startInx) < fuel)%nat ->
    is_Some (summary_loop fuel self srch ret startInx out).
Proof.
  induction fuel as [|fuel IH]; intros startInx out Hfuel; [lia|].
  simpl. destruct (getEvent self startInx) as [thisEvent printed].
  destruct (summary_matches srch thisEvent) as [[|]|x]; [done| |done].
  destruct (getEventCount self <=? startInx + 1) eqn:Hend; [done|].
  apply IH. lia.
Qed.

Lemma findEventBySummary_ends (self : ical) (srch : string) (startInx : Z) :
  is_Some (findEventBySummary self srch startInx).
Proof.
  unfold findEventBySummary.
  destruct (negb (is_empty (_calendar self))); [|done].
  apply summary_loop_ends. unfold summary_fuel. lia.
Qed.

(** From a valid start, over records that all carry a text summary, the
    loop returns the first hit at or after the start, or [ret]. *)
Lemma summary_loop_first_hit (self : ical) (srch : string)
    (ret : Z * option Component) :
  is_empty (_calendar self) = false ->
  Forall (fun e => has_text_summary e = true) (_events self) ->
  forall (fuel : nat) (startInx : Z) (out : list msg),
    0 <= startInx < getEventCount self ->
    (Z.to_nat (getEventCount self - startInx) < fuel)%nat ->
    summary_loop fuel self srch ret startInx out
    = Some (match first_hit srch (drop (Z.to_nat startInx) (_events self))
            with
            | Some (k, e) => Ok (startInx + k, Some e)
            | None => Ok ret
            end, out).
Proof.
  intros Hcal Htext.
  induction fuel as [|fuel IH]; intros startInx out Hi Hfuel;
    [clear -Hfuel; lia|].
  assert (Hnat : (Z.to_nat startInx < length (_events self))%nat)
    by (clear -Hi; unfold getEventCount in Hi; lia).
  destruct (lookup_lt_is_Some_2 _ _ Hnat) as [e He].
  simpl. unfold getEvent. rewrite Hcal; simpl.
  rewrite list_getitem_nonneg by (clear -Hi; lia). rewrite He.
  rewrite (drop_S _ _ _ He); simpl.
  assert (Ht : has_text_summary e = true).
  { rewrite Forall_forall in Htext. apply Htext.
    by apply list_elem_of_lookup_2 in He. }
  unfold has_text_summary in Ht. unfold summary_hit.
  destruct (props e !! "SUMMARY") as [[|s|]|]; try discriminate.
  rewrite app_nil_r.
  destruct (str_in (upper srch) (upper s)).
  { by rewrite Z.add_0_r. }
  destruct (getEventCount self <=? startInx + 1) eqn:Hend.
  - rewrite drop_ge; [done|].
    apply Z.leb_le in Hend.
    clear -Hi Hend. unfold getEventCount in Hi, Hend. lia.
  - apply Z.leb_gt in Hend.
    rewrite IH by (clear -Hi Hfuel Hend; lia).
    replace (Z.to_nat (startInx + 1)) with (S (Z.to_nat startInx))
      by (clear -Hi; lia).
    destruct (first_hit srch (drop (S (Z.to_nat startInx)) (_events self)))
      as [[k e']|]; [|done].
    replace (startInx + 1 + k) with (startInx + (k + 1)) by (clear; lia).
    reflexivity.
Qed.

Lemma findEventBySummary_in_range (self : ical) (srch : string)
    (startInx : Z) :
  is_empty (_calendar self) = false ->
  Forall (fun e => has_text_summary e = true) (_events self) ->
  0 <= startInx < getEventCount self ->
  findEventBySummary self srch startInx
  = Some (match first_hit srch (drop (Z.to_nat startInx) (_events self))
          with
          | Some (k, e) => Ok (startInx + k, Some e)
          | None => Ok (startInx, None)
          end, []).
Proof.
  intros Hcal Htext Hi. unfold findEventBySummary. rewrite Hcal; simpl negb.
  cbv iota. apply summary_loop_first_hit; try done.
  unfold summary_fuel. clear; lia.
Qed.

(** On an empty calendar nothing is scanned. *)
Lemma findEventBySummary_empty_calendar (self : ical) (srch : string)
    (startInx : Z) :
  is_empty (_calendar self) = true ->
  findEventBySummary self srch startInx = Some (Ok (startInx, None), []).
Proof. intros Hcal. unfold findEventBySummary. by rewrite Hcal. Qed.

(** At or past the end of the list the first [getEvent] answers [None],
    and subscripting it raises. *)
Lemma findEventBySummary_past_end (self : ical) (srch : string)
    (startInx : Z) :
  is_empty (_calendar self) = false ->
  getEventCount self <= startInx ->
  fst <$> findEventBySummary self srch startInx = Some (Raise TypeError).
Proof.
  intros Hcal Hi. unfold findEventBySummary, summary_fuel. rewrite Hcal.
  simpl. unfold getEvent. rewrite Hcal; simpl.
  rewrite list_getitem_out_of_range
    by (clear -Hi; unfold getEventCount in Hi; lia).
  reflexivity.
Qed.

(** C5, at the failing input: over the three events the search for
    ["standup"] answers (0, "Daily Standup") from index 0 and
    (2, "Weekly Standup") from index 1; from index 3 it raises
    [TypeError] instead of answering (3, [None]). *)
Theorem findEventBySummary_start_past_end_raises :
  findEventBySummary standups "standup" 0
  = Some (Ok (0, Some (event_of "Daily Standup" ∅)), [])
  /\ findEventBySummary standups "standup" 1
     = Some (Ok (2, Some (event_of "Weekly Standup" ∅)), [])
  /\ getEventCount standups = 3
  /\ findEventBySummary standups "standup" 3 = Some (Raise TypeError, []).
Proof. repeat split; vm_compute; reflexivity. Qed.

(** * Further properties *)

(** ** Building and clearing a container *)

Lemma is_empty_add_component (c e : Component) :
  is_empty (add_component c e) = false.
Proof.
  unfold is_empty, add_component; simpl.
  destruct (map_to_list (props c)); [|done].
  destruct (subcomponents c); done.
Qed.

Lemma is_empty_has_props (c : Component) :
  props c <> ∅ -> is_empty c = false.
Proof.
  intros Hne. unfold is_empty.
  destruct (map_to_list (props c)) eqn:Hl; [|done].
  by apply map_to_list_empty_iff in Hl.
Qed.

Lemma createNew_calendar (self : ical) :
  _calendar (createNew self) = new_calendar.
Proof.
  unfold createNew; simpl. vm_compute. reflexivity.
Qed.

Lemma is_empty_new_calendar : is_empty new_calendar = false.
Proof. vm_compute; reflexivity. Qed.

Lemma createNew_events (self : ical) :
  _events (createNew self) = _events self.
Proof. unfold createNew; simpl. apply reset_events. Qed.

Lemma addEvent_events (self : ical) (e : Component) :
  _events (snd (addEvent self e)) = _events self ++ [e].
Proof.
  unfold addEvent; simpl.
  destruct (is_empty (_calendar self)); [|done].
  by rewrite createNew_events.
Qed.

Lemma addEvent_not_empty (self : ical) (e : Component) :
  is_empty (_calendar (snd (addEvent self e))) = false.
Proof. unfold addEvent; simpl. apply is_empty_add_component. Qed.

(** [addEvent] appends: the count grows by one, the calendar is not empty
    afterwards, the new event is found at the old count and at index
    [-1], and every event stored before is found at its index, also when
    the calendar was empty before the call. *)
Theorem addEvent_then_getEvent (self : ical) (e : Component) :
  getEventCount (snd (addEvent self e)) = getEventCount self + 1
  /\ is_empty (_calendar (snd (addEvent self e))) = false
  /\ fst (getEvent (snd (addEvent self e)) (getEventCount self)) = Some e
  /\ fst (getEvent (snd (addEvent self e)) (-1)) = Some e
  /\ forall (i : nat) (x : Component),
       _events self !! i = Some x ->
       fst (getEvent (snd (addEvent self e)) (Z.of_nat i)) = Some x.
Proof.
  pose proof (addEvent_events self e) as Hev.
  pose proof (addEvent_not_empty self e) as Hne.
  assert (Hlen : length (_events (snd (addEvent self e)))
                 = S (length (_events self))).
  { rewrite Hev, length_app. simpl. clear; lia. }
  unfold getEventCount, getEvent. rewrite Hne. simpl negb. cbv iota.
  split; [rewrite Hlen; clear; lia|]. split; [done|]. split; [|split].
  - rewrite list_getitem_nonneg by (clear; lia).
    rewrite Nat2Z.id, Hev, lookup_app_r by done.
    by rewrite Nat.sub_diag.
  - rewrite list_getitem_from_end by (rewrite Hlen; clear; lia).
    rewrite Hlen.
    replace (Z.to_nat (-1 + Z.of_nat (S (length (_events self)))))
      with (length (_events self)) by (clear; lia).
    rewrite Hev, lookup_app_r by done. by rewrite Nat.sub_diag.
  - intros i x Hx. rewrite list_getitem_nonneg by (clear; lia).
    rewrite Nat2Z.id, Hev, lookup_app_l by (by apply lookup_lt_Some in Hx).
    by rewrite Hx.
Qed.

Lemma add_all_appends (strip : bool) (kept : list Component) :
  forall outcal : ical,
    is_empty (_calendar outcal) = false ->
    _calendar (add_all strip outcal kept)
    = mkComponent (name (_calendar outcal)) (props (_calendar outcal))
        (subcomponents (_calendar outcal) ++ map (delivered strip) kept)
    /\ _events (add_all strip outcal kept)
       = _events outcal ++ map (delivered strip) kept
    /\ _fname (add_all strip outcal kept) = _fname outcal.
Proof.
  induction kept as [|e kept IH]; intros outcal Hne.
  - simpl. rewrite !app_nil_r. by destruct (_calendar outcal).
  - assert (Hstep : add_one strip outcal e
                    = snd (addEvent outcal (delivered strip e)))
      by (unfold add_one, delivered; by destruct strip).
    change (add_all strip outcal (e :: kept))
      with (add_all strip (add_one strip outcal e) kept).
    rewrite Hstep.
    destruct (IH (snd (addEvent outcal (delivered strip e)))
                (addEvent_not_empty _ _)) as (Hcal & Hev & Hfn).
    rewrite Hcal, Hev, Hfn. unfold addEvent. rewrite Hne. simpl.
    rewrite <- !app_assoc. done.
Qed.

(** From a container whose calendar is not empty, the loop of the main
    block adds the delivered events to the calendar's subcomponents and to
    the event list alike, in order, and leaves the properties alone. *)
Theorem add_all_in_step (strip : bool) (kept : list Component)
    (outcal : ical) :
  is_empty (_calendar outcal) = false ->
  _calendar (add_all strip outcal kept)
  = mkComponent (name (_calendar outcal)) (props (_calendar outcal))
      (subcomponents (_calendar outcal) ++ map (delivered strip) kept)
  /\ _events (add_all strip outcal kept)
     = _events outcal ++ map (delivered strip) kept
  /\ _fname (add_all strip outcal kept) = _fname outcal.
Proof. apply add_all_appends. Qed.

Lemma add_all_in_step_witness :
  _calendar (add_all true (createNew (__init__ "out.ics" false))
               [meeting; eventB])
  = mkComponent "VCALENDAR" (props new_calendar)
      [stripApplicationSpecificSubcomponents meeting;
       stripApplicationSpecificSubcomponents eventB]
  /\ _events (add_all true (createNew (__init__ "out.ics" false))
                [meeting; eventB])
     = [stripApplicationSpecificSubcomponents meeting;
        stripApplicationSpecificSubcomponents eventB].
Proof.
  destruct (add_all_in_step true [meeting; eventB]
              (createNew (__init__ "out.ics" false)))
    as (Hcal & Hev & _).
  - vm_compute; reflexivity.
  - split; [rewrite Hcal | rewrite Hev]; reflexivity.
Defined.

(** [createNew] replaces the calendar by one with [PRODID] and [VERSION]
    only, whatever it held, but keeps the event list: the count is
    unchanged and [getEvent] goes on answering from the old list. *)
Theorem createNew_keeps_event_list (self : ical) (i : Z) :
  _calendar (createNew self) = new_calendar
  /\ getEventCount (createNew self) = getEventCount self
  /\ fst (getEvent (createNew self) i) = list_getitem (_events self) i.
Proof.
  split; [apply createNew_calendar|]. split.
  - unfold getEventCount. by rewrite createNew_events.
  - unfold getEvent.
    rewrite createNew_calendar, is_empty_new_calendar, createNew_events.
    simpl. by destruct (list_getitem (_events self) i).
Qed.

(** [reset] leaves the calendar without any property, and a second
    [reset] changes nothing more. *)
Theorem reset_clears_properties (self : ical) :
  props (_calendar (reset self)) = ∅
  /\ reset (reset self) = reset self.
Proof.
  split; [|apply reset_idempotent].
  unfold reset. destruct (is_empty (_calendar self)) eqn:He; simpl; [|done].
  unfold is_empty in He.
  destruct (map_to_list (props (_calendar self))) eqn:Hl; [|discriminate].
  by apply map_to_list_empty_iff in Hl.
Qed.

(** Once [createNew] or [addEvent] has run, [readFromFile] is refused:
    it returns [False], prints the refusal and changes nothing, whatever
    the file holds. *)
Theorem readFromFile_refused_once_initialized
    (fs : file_system) (self : ical) (e : Component) :
  readFromFile fs (createNew self)
  = (Ok false, createNew self, [MsgClearFirst])
  /\ readFromFile fs (snd (addEvent self e))
     = (Ok false, snd (addEvent self e), [MsgClearFirst]).
Proof.
  split; unfold readFromFile.
  - by rewrite createNew_calendar, is_empty_new_calendar.
  - by rewrite addEvent_not_empty.
Qed.

(** [readFromFile] is all or nothing.  It returns [True] only when the
    calendar was empty and the file opened and decoded, and then the
    container holds the decoded calendar and its events; in every other
    outcome, an exception included, calendar and event list are as
    before.  File name and verbosity never change. *)
Theorem readFromFile_all_or_nothing
    (fs : file_system) (self self' : ical) (r : result bool)
    (out : list msg) :
  readFromFile fs self = (r, self', out) ->
  _fname self' = _fname self
  /\ _verbosity self' = _verbosity self
  /\ (r = Ok true ->
      is_empty (_calendar self) = true
      /\ open_rb fs = OsOk (Some (_calendar self'))
      /\ _events self' = walk "VEVENT" (_calendar self'))
  /\ (r <> Ok true ->
      _calendar self' = _calendar self /\ _events self' = _events self).
Proof.
  unfold readFromFile, try_open. intros Hrun.
  destruct (is_empty (_calendar self));
    [|injection Hrun as <- <- <-; repeat split; done].
  destruct (_verbosity self) eqn:Hv.
  - destruct (stat_size fs) as [size| | |];
      try (injection Hrun as <- <- <-; repeat split; done).
    destruct (open_rb fs) as [[cal|]| | |];
      injection Hrun as <- <- <-; repeat split; done.
  - destruct (open_rb fs) as [[cal|]| | |];
      injection Hrun as <- <- <-; repeat split; done.
Qed.

Lemma readFromFile_all_or_nothing_witness :
  _events (snd (fst (readFromFile fs0 (__init__ "in.ics" true))))
  = walk "VEVENT"
      (_calendar (snd (fst (readFromFile fs0 (__init__ "in.ics" true)))))
  /\ _events (snd (fst (readFromFile (mk_fs (OsOk 7) (OsOk None))
                         (__init__ "in.ics" true))))
     = _events (__init__ "in.ics" true).
Proof.
  split.
  - destruct (readFromFile_all_or_nothing fs0 (__init__ "in.ics" true)
                (snd (fst (readFromFile fs0 (__init__ "in.ics" true))))
                (Ok true)
                (snd (readFromFile fs0 (__init__ "in.ics" true))))
      as (_ & _ & Hok & _); [vm_compute; reflexivity|].
    apply Hok. reflexivity.
  - destruct (readFromFile_all_or_nothing (mk_fs (OsOk 7) (OsOk None))
                (__init__ "in.ics" true)
                (snd (fst (readFromFile (mk_fs (OsOk 7) (OsOk None))
                             (__init__ "in.ics" true))))
                (Raise ValueError)
                (snd (readFromFile (mk_fs (OsOk 7) (OsOk None))
                        (__init__ "in.ics" true))))
      as (_ & _ & _ & Hfail); [vm_compute; reflexivity|].
    apply Hfail. discriminate.
Defined.

(** ** What a load stores *)

Lemma _walk_names (nm : string) :
  forall c : Component, Forall (fun e => name e = nm) (_walk nm c).
Proof.
  fix IH 1. intros [n p subs]. simpl. apply Forall_app. split.
  - destruct (String.eqb n nm) eqn:Hn; [|constructor].
    constructor; [|constructor]. simpl. by apply String.eqb_eq.
  - induction subs as [|s subs IHsubs]; [constructor|].
    apply Forall_app. split; [apply IH | apply IHsubs].
Qed.

Lemma _walk_self (nm : string) (c : Component) :
  name c = nm -> In c (_walk nm c).
Proof.
  destruct c as [n p subs]; simpl; intros ->.
  rewrite String.eqb_refl. by left.
Qed.

Lemma _walk_child (nm : string) (c s : Component) :
  In s (subcomponents c) -> name s = nm -> In s (_walk nm c).
Proof.
  destruct c as [n p subs]; simpl. intros Hin Hn.
  apply in_or_app. right.
  induction subs as [|s' subs IH]; [destruct Hin|].
  apply in_or_app. destruct Hin as [->|Hin].
  - left. by apply _walk_self.
  - right. by apply IH.
Qed.

(** After a load that returned [True], every stored event is a [VEVENT]
    component, and every [VEVENT] directly under the decoded calendar is
    stored; components of other kinds are not. *)
Theorem readFromFile_stores_vevents
    (fs : file_system) (self self' : ical) (out : list msg) :
  readFromFile fs self = (Ok true, self', out) ->
  Forall (fun e => name e = "VEVENT") (_events self')
  /\ forall s, In s (subcomponents (_calendar self')) ->
               name s = "VEVENT" -> In s (_events self').
Proof.
  intros Hrun.
  assert (Hev : _events self' = walk "VEVENT" (_calendar self')).
  { revert Hrun. unfold readFromFile, try_open.
    destruct (is_empty (_calendar self)); [|discriminate].
    destruct (_verbosity self);
      [destruct (stat_size fs) as [size| | |]; try discriminate|];
      (destruct (open_rb fs) as [[cal|]| | |]; try discriminate;
       intros Hrun; injection Hrun as <- _; reflexivity). }
  rewrite Hev. unfold walk. change (upper "VEVENT") with "VEVENT".
  split; [apply _walk_names|]. intros s Hin Hn. by apply _walk_child.
Qed.

Lemma readFromFile_stores_vevents_witness :
  Forall (fun e => name e = "VEVENT")
         (_events (snd (fst (readFromFile fs0 (__init__ "in.ics" false))))).
Proof.
  apply (readFromFile_stores_vevents fs0 (__init__ "in.ics" false)
           (snd (fst (readFromFile fs0 (__init__ "in.ics" false))))
           (snd (readFromFile fs0 (__init__ "in.ics" false)))).
  vm_compute; reflexivity.
Defined.

(** ** More on the recency filter *)

Lemma date_ge_spec (a b : date) :
  Date.ge a b = true <->
  Date.year b < Date.year a
  \/ (Date.year a = Date.year b
      /\ (Date.month b < Date.month a
          \/ (Date.month a = Date.month b /\ Date.day b <= Date.day a))).
Proof.
  unfold Date.ge.
  rewrite !orb_true_iff, !andb_true_iff, !orb_true_iff, !andb_true_iff.
  rewrite !Z.ltb_lt, !Z.eqb_eq, Z.leb_le. tauto.
Qed.

Lemma date_ge_trans (a b c : date) :
  Date.ge a b = true -> Date.ge b c = true -> Date.ge a c = true.
Proof. rewrite !date_ge_spec. lia. Qed.

(** The time of day and the time zone of a [DTEND] or of an [UNTIL]
    never change the decision: a date-time decides as its date does. *)
Theorem time_of_day_never_decides
    (cutoff : date) (e : Component) (d : date) (seconds : Z)
    (utcoffset : option Z) (r : gmap string (list rval))
    (rest : list rval) :
  survives cutoff (set_prop e "DTEND" (VDt (DDateTime d seconds utcoffset)))
  = survives cutoff (set_prop e "DTEND" (VDt (DDate d)))
  /\ survives cutoff
       (set_prop e "RRULE"
          (VRecur (<["UNTIL" := RDt (DDateTime d seconds utcoffset) :: rest]>
                     r)))
     = survives cutoff
         (set_prop e "RRULE"
            (VRecur (<["UNTIL" := RDt (DDate d) :: rest]> r))).
Proof.
  split; unfold survives, recurrence, dtend, set_prop; cbn [props].
  - rewrite !lookup_insert_eq. by rewrite !lookup_insert_ne by done.
  - rewrite !lookup_insert_eq. rewrite !lookup_insert_ne by done.
    reflexivity.
Qed.

(** Moving the cutoff back never drops a record: a record the loop body
    keeps at a later cutoff is kept at every earlier one. *)
Lemma survives_earlier_cutoff (late early : date) (e : Component) :
  Date.ge late early = true ->
  survives late e = Ok true -> survives early e = Ok true.
Proof.
  intros Hge. unfold survives, recurrence, dtend.
  assert (Hmono : forall d, Date.ge d late = true -> Date.ge d early = true)
    by (intros d Hd; by apply (date_ge_trans d late early)).
  destruct (props e !! "RRULE") as [[x|s|r]|]; simpl; try discriminate.
  - destruct (negb (str_in "UNTIL" s)); simpl; [|discriminate].
    destruct (props e !! "DTEND") as [[y| |]|]; simpl; try discriminate.
    by rewrite !orb_true_r.
  - destruct (r !! "UNTIL") as [[|[x| |] l]|]; simpl; try discriminate.
    + destruct (props e !! "DTEND") as [[y| |]|]; simpl; try discriminate.
      intros [= H]. f_equal. apply orb_true_iff in H as [H|H];
        rewrite (Hmono _ H); [done|by rewrite orb_true_r].
    + destruct (props e !! "DTEND") as [[y| |]|]; simpl; try discriminate.
      by rewrite !orb_true_r.
  - destruct (props e !! "DTEND") as [[y| |]|]; simpl; try discriminate.
    rewrite !orb_false_r. intros [= H]. by rewrite (Hmono _ H).
Qed.

(** When the loop ends normally its result is the records the body
    kept, after [retList]. *)
Lemma filter_loop_ok (verbosity : bool) (cutoff : date)
    (events : list Component) :
  forall retList out kept,
    fst (filter_loop verbosity cutoff events retList out) = Ok kept ->
    kept = retList ++ List.filter (survived cutoff) events.
Proof.
  induction events as [|e events IH]; intros retList out kept; simpl.
  - intros [= <-]. by rewrite app_nil_r.
  - unfold survived at 1.
    destruct (survives cutoff e) as [[|]|x]; [| |discriminate].
    + destruct verbosity.
      * destruct (props e !! "SUMMARY"); [|discriminate].
        intros H. apply IH in H. by rewrite <- app_assoc in H.
      * intros H. apply IH in H. by rewrite <- app_assoc in H.
    + apply IH.
Qed.

Ltac date_bools :=
  repeat match goal with
    | H : (_ && _) = true |- _ => apply andb_prop in H as [? ?]
    | H : (_ <? _) = true |- _ => apply Z.ltb_lt in H
    | H : (_ <? _) = false |- _ => apply Z.ltb_ge in H
    | H : (_ <=? _) = true |- _ => apply Z.leb_le in H
    | H : (_ =? _) = true |- _ => apply Z.eqb_eq in H
    | H : (_ =? _) = false |- _ => apply Z.eqb_neq in H
    end.

(** Subtracting [n] months moves the month of the date back by exactly
    [n] places; only the day is clipped. *)
Lemma minus_months_index (today : date) (n : Z) (c : date) :
  month_in_range today ->
  Date.minus_months today n = Some c ->
  month_index c = month_index today - n
  /\ month_in_range c /\ 1 <= Date.year c.
Proof.
  unfold month_in_range, month_index, Date.minus_months,
    Date.subtract_months, Date.add, Date.neg, Date.delta_of_months,
    Date.replace.
  intros Hm.
  destruct n as [|p|p]; cbn [Z.sgn Z.abs];
    (destruct (11 <? _) eqn:Hbig; cbn [Date.years Date.months];
     match goal with |- context [if ?b =? 0 then _ else _] =>
       destruct (b =? 0) eqn:Hzero end;
     repeat match goal with |- context [if ?b then _ else _] =>
       destruct b eqn:? end;
     intros [= <-] || discriminate);
    cbn [Date.year Date.month]; date_bools;
    Z.div_mod_to_equations; lia.
Qed.

Lemma minus_months_monotone (today : date) (n1 n2 : Z) (c1 c2 : date) :
  month_in_range today -> n2 <= n1 ->
  Date.minus_months today n1 = Some c1 ->
  Date.minus_months today n2 = Some c2 ->
  Date.ge c2 c1 = true.
Proof.
  intros Hm Hle H1 H2. apply date_ge_spec.
  destruct (Z.eq_dec n1 n2) as [->|Hne].
  - rewrite H1 in H2. injection H2 as ->. lia.
  - destruct (minus_months_index _ _ _ Hm H1) as (Hi1 & Hr1 & _).
    destruct (minus_months_index _ _ _ Hm H2) as (Hi2 & Hr2 & _).
    unfold month_index, month_in_range in *. lia.
Qed.

(** Looking further back never loses a record: whatever a call with
    fewer months returns is also returned by a call with more months on
    the same day. *)
Theorem longer_lookback_keeps_more
    (today : date) (short long : Z) (self : ical)
    (kept_short kept_long : list Component) (out_short out_long : list msg) :
  month_in_range today -> short <= long ->
  findEventsByDateAfter today short self = (Ok kept_short, out_short) ->
  findEventsByDateAfter today long self = (Ok kept_long, out_long) ->
  forall e, In e kept_short -> In e kept_long.
Proof.
  unfold findEventsByDateAfter. intros Hm Hle Hs Hl e.
  destruct (Date.subtract_months today short) as [cs|[|]] eqn:Hcs;
    [|discriminate..].
  destruct (Date.subtract_months today long) as [cl|[|]] eqn:Hcl;
    [|discriminate..].
  apply subtract_months_inl in Hcs, Hcl.
  pose proof (minus_months_monotone _ _ _ _ _ Hm Hle Hcl Hcs) as Hge.
  apply (f_equal fst) in Hs, Hl. simpl in Hs, Hl.
  apply filter_loop_ok in Hs, Hl. subst kept_short kept_long. simpl.
  rewrite !filter_In. intros [Hin Hkept]. split; [done|].
  unfold survived in *.
  destruct (survives cs e) as [[|]|x] eqn:Hsv; try discriminate.
  by rewrite (survives_earlier_cutoff _ _ _ Hge Hsv).
Qed.

Lemma longer_lookback_keeps_more_witness :
  In eventD [eventA; eventB; eventC; eventD].
Proof.
  apply (longer_lookback_keeps_more today0 12 24
           (container_of false [eventA; eventB; eventC; eventD])
           [eventB; eventC; eventD] [eventA; eventB; eventC; eventD] [] []).
  - unfold month_in_range; simpl; lia.
  - lia.
  - vm_compute; reflexivity.
  - vm_compute; reflexivity.
  - right; right; left; reflexivity.
Defined.

Ltac date_cases :=
  repeat match goal with
    | H : negb _ = true |- _ => apply negb_true_iff in H
    | H : negb _ = false |- _ => apply negb_false_iff in H
    | H : (_ && _) = true |- _ => apply andb_prop in H as [? ?]
    | H : (_ && _) = false |- _ => apply andb_false_iff in H as [?|?]
    | H : (_ <? _) = true |- _ => apply Z.ltb_lt in H
    | H : (_ <? _) = false |- _ => apply Z.ltb_ge in H
    | H : (_ <=? _) = true |- _ => apply Z.leb_le in H
    | H : (_ <=? _) = false |- _ => apply Z.leb_gt in H
    | H : (_ =? _) = true |- _ => apply Z.eqb_eq in H
    | H : (_ =? _) = false |- _ => apply Z.eqb_neq in H
    end.

Lemma days_in_month_bounds (y m : Z) : 28 <= Date.days_in_month y m <= 31.
Proof.
  unfold Date.days_in_month.
  repeat match goal with |- context [if ?b then _ else _] => destruct b end;
    lia.
Qed.

(** Asking for at least twelve months per year of the current date puts
    the cutoff before year 1: the call raises before it prints anything
    or looks at any event.  The exception is [ValueError] as long as the
    year the subtraction arrives at fits a C [int], and [OverflowError]
    from there on. *)
Theorem lookback_before_year_one_raises
    (today : date) (months : Z) (self : ical) :
  month_in_range today -> 1 <= Date.year today -> 1 <= Date.day today ->
  12 * Date.year today <= months ->
  findEventsByDateAfter today months self
  = (Raise (if months <=? 12 * (Date.year today + 2147483648)
                          + Date.month today - 1
            then ValueError else OverflowError), []).
Proof.
  unfold month_in_range, findEventsByDateAfter, Date.subtract_months,
    Date.add, Date.neg, Date.delta_of_months, Date.replace, Date.fits_c_int.
  intros Hm Hy Hd Hbig.
  rewrite (Z.abs_eq months), (Z.sgn_pos months) by lia.
  destruct (11 <? months) eqn:Hp; [|apply Z.ltb_ge in Hp; lia].
  cbn [Date.years Date.months].
  repeat match goal with |- context [if ?b then _ else _] =>
    destruct b eqn:? end; try reflexivity; exfalso; date_cases;
    repeat match goal with
      | H : context [Date.days_in_month ?y ?m] |- _ =>
          pose proof (days_in_month_bounds y m);
          generalize dependent (Date.days_in_month y m); intros
      end;
    Z.div_mod_to_equations; lia.
Qed.

Lemma lookback_before_year_one_raises_witness :
  findEventsByDateAfter today0 24312 (container_of true [eventA; eventB])
  = (Raise ValueError, [])
  /\ findEventsByDateAfter today0 30000000000
       (container_of true [eventA; eventB])
     = (Raise OverflowError, []).
Proof.
  split.
  - rewrite (lookback_before_year_one_raises today0 24312);
      [reflexivity|unfold month_in_range; simpl; lia|simpl; lia..].
  - rewrite (lookback_before_year_one_raises today0 30000000000);
      [reflexivity|unfold month_in_range; simpl; lia|simpl; lia..].
Defined.

Lemma filter_loop_output (verbosity : bool) (cutoff : date)
    (events : list Component) :
  forall retList out0 kept out,
    filter_loop verbosity cutoff events retList out0 = (Ok kept, out) ->
    exists ks lines,
      kept = retList ++ ks /\ out = out0 ++ lines
      /\ if verbosity then Forall2 adding_line ks lines else lines = [].
Proof.
  induction events as [|e events IH]; intros retList out0 kept out; simpl.
  - intros [= <- <-]. exists [], []. rewrite !app_nil_r.
    repeat split; by destruct verbosity.
  - destruct (survives cutoff e) as [[|]|x]; [| |discriminate].
    + destruct verbosity.
      * destruct (props e !! "SUMMARY") as [s|] eqn:Hs; [|discriminate].
        intros H. apply IH in H as (ks & lines & -> & -> & Hlines).
        exists (e :: ks), (MsgAdding s :: lines).
        rewrite <- !app_assoc. repeat split.
        constructor; [by exists s|done].
      * intros H. apply IH in H as (ks & lines & -> & -> & ->).
        exists (e :: ks), []. by rewrite <- !app_assoc.
    + apply IH.
Qed.

(** What a successful call prints: nothing on a quiet container; on a
    verbose one the line naming the cutoff, then one line per returned
    record, in order, each carrying the summary of its record. *)
Theorem findEventsByDateAfter_output
    (today : date) (months : Z) (cutoff : date) (self : ical)
    (kept : list Component) (out : list msg) :
  Date.minus_months today months = Some cutoff ->
  findEventsByDateAfter today months self = (Ok kept, out) ->
  if _verbosity self
  then exists lines, out = MsgFindingAfter cutoff :: lines
                     /\ Forall2 adding_line kept lines
  else out = [].
Proof.
  unfold findEventsByDateAfter. intros Hc Hrun.
  rewrite (proj1 (subtract_months_inl _ _ _) Hc) in Hrun.
  apply filter_loop_output in Hrun as (ks & lines & -> & -> & Hlines).
  destruct (_verbosity self); [|by subst].
  exists lines. by split.
Qed.

Lemma findEventsByDateAfter_output_witness :
  exists lines,
    [MsgFindingAfter cutoff0; MsgAdding (VText "B"); MsgAdding (VText "C")]
    = MsgFindingAfter cutoff0 :: lines
    /\ Forall2 adding_line [eventB; eventC] lines.
Proof.
  apply (findEventsByDateAfter_output today0 12 cutoff0
           (container_of true [eventA; eventB; eventC])
           [eventB; eventC]
           [MsgFindingAfter cutoff0; MsgAdding (VText "B");
            MsgAdding (VText "C")]).
  - vm_compute; reflexivity.
  - vm_compute; reflexivity.
Defined.

(** Stripping never changes the decision of the filter: [DTEND] and
    [RRULE] pass the stripper, so filtering stripped events keeps the
    stripped versions of the events filtering keeps. *)
Theorem strip_never_changes_survival
    (cutoff : date) (e : Component) (l : list Component) :
  survives cutoff (stripApplicationSpecificSubcomponents e)
  = survives cutoff e
  /\ List.filter (survived cutoff)
       (map stripApplicationSpecificSubcomponents l)
     = map stripApplicationSpecificSubcomponents
         (List.filter (survived cutoff) l).
Proof.
  assert (Hone : forall x,
             survives cutoff (stripApplicationSpecificSubcomponents x)
             = survives cutoff x).
  { intros x. unfold survives, recurrence, dtend.
    by rewrite !strip_keeps_unmarked by reflexivity. }
  split; [apply Hone|].
  induction l as [|x l IH]; [done|]. cbn [map List.filter].
  replace (survived cutoff (stripApplicationSpecificSubcomponents x))
    with (survived cutoff x) by (unfold survived; by rewrite Hone).
  destruct (survived cutoff x); cbn [map]; by rewrite IH.
Qed.

(** ** More on the search by summary *)

(** From a valid start on a calendar that is not empty, over events
    whose summaries are texts, the search answers the index and the
    record of the first event at or after the start whose summary
    contains the search string, letter case aside, and the start index
    with [None] when there is none; it prints nothing. *)
Theorem findEventBySummary_first_hit (self : ical) (srch : string)
    (startInx : Z) :
  is_empty (_calendar self) = false ->
  Forall (fun e => has_text_summary e = true) (_events self) ->
  0 <= startInx < getEventCount self ->
  findEventBySummary self srch startInx
  = Some (match first_hit srch (drop (Z.to_nat startInx) (_events self))
          with
          | Some (k, e) => Ok (startInx + k, Some e)
          | None => Ok (startInx, None)
          end, []).
Proof.
  intros Hcal Htext Hi. unfold findEventBySummary. rewrite Hcal; simpl negb.
  cbv iota. apply summary_loop_first_hit; try done.
  unfold summary_fuel. clear; lia.
Qed.

Lemma findEventBySummary_first_hit_witness :
  findEventBySummary standups "STANDUP" 1
  = Some (Ok (2, Some (event_of "Weekly Standup" ∅)), [])
  /\ findEventBySummary standups "retro" 1 = Some (Ok (1, None), []).
Proof.
  split.
  - rewrite (findEventBySummary_first_hit standups "STANDUP" 1).
    + vm_compute; reflexivity.
    + vm_compute; reflexivity.
    + repeat (constructor; [vm_compute; reflexivity|]). constructor.
    + unfold getEventCount; simpl; lia.
  - rewrite (findEventBySummary_first_hit standups "retro" 1).
    + vm_compute; reflexivity.
    + vm_compute; reflexivity.
    + repeat (constructor; [vm_compute; reflexivity|]). constructor.
    + unfold getEventCount; simpl; lia.
Defined.

Lemma upper_ascii_idempotent (c : ascii) :
  upper_ascii (upper_ascii c) = upper_ascii c.
Proof. destruct c as [[] [] [] [] [] [] [] []]; reflexivity. Qed.

Lemma upper_idempotent (s : string) : upper (upper s) = upper s.
Proof.
  induction s as [|c s IH]; [done|]. simpl.
  by rewrite upper_ascii_idempotent, IH.
Qed.

Lemma summary_loop_upper (self : ical) (srch : string)
    (ret : Z * option Component) (fuel : nat) :
  forall startInx out,
    summary_loop fuel self (upper srch) ret startInx out
    = summary_loop fuel self srch ret startInx out.
Proof.
  induction fuel as [|fuel IH]; intros startInx out; [done|]. simpl.
  destruct (getEvent self startInx) as [thisEvent printed].
  assert (Hm : summary_matches (upper srch) thisEvent
               = summary_matches srch thisEvent).
  { unfold summary_matches. by rewrite upper_idempotent. }
  rewrite Hm. destruct (summary_matches srch thisEvent) as [[|]|]; try done.
  by rewrite IH.
Qed.

(** The search does not see the case of the letters: an upper-cased
    search string gives the same answer, and so does an event whose
    summary is upper-cased. *)
Theorem findEventBySummary_ignores_case
    (self : ical) (srch : string) (startInx : Z) (e : Component)
    (s : string) :
  findEventBySummary self (upper srch) startInx
  = findEventBySummary self srch startInx
  /\ summary_matches srch (Some (set_prop e "SUMMARY" (VText (upper s))))
     = summary_matches srch (Some (set_prop e "SUMMARY" (VText s))).
Proof.
  split.
  - unfold findEventBySummary.
    destruct (negb (is_empty (_calendar self))); [|done].
    apply summary_loop_upper.
  - unfold summary_matches, set_prop; cbn [props].
    rewrite !lookup_insert_eq. by rewrite upper_idempotent.
Qed.

Lemma summary_loop_missing_summary (self : ical) (srch : string)
    (ret : Z * option Component) (j : Z) (e : Component) :
  is_empty (_calendar self) = false ->
  _events self !! Z.to_nat j = Some e ->
  props e !! "SUMMARY" = None ->
  forall (d : nat) (fuel : nat) (startInx : Z) (out : list msg),
    0 <= startInx -> j = startInx + Z.of_nat d ->
    (d < fuel)%nat ->
    (forall k x, startInx <= k < j -> _events self !! Z.to_nat k = Some x ->
                 has_text_summary x = true /\ summary_hit srch x = false) ->
    summary_loop fuel self srch ret startInx out
    = Some (Raise (KeyError "SUMMARY"), out).
Proof.
  intros Hcal He Hs.
  assert (Hlen : (Z.to_nat j < length (_events self))%nat)
    by (by apply lookup_lt_Some in He).
  induction d as [|d IH]; intros fuel startInx out H0 Hj Hfuel Hskip;
    (destruct fuel as [|fuel]; [clear -Hfuel; lia|]); simpl;
    unfold getEvent; rewrite Hcal; simpl;
    rewrite list_getitem_nonneg by done.
  - replace startInx with j by (clear -Hj; lia).
    rewrite He; simpl. rewrite Hs. by rewrite app_nil_r.
  - assert (Hk : (Z.to_nat startInx < length (_events self))%nat)
      by (clear -Hlen Hj H0; lia).
    destruct (lookup_lt_is_Some_2 _ _ Hk) as [x Hx]. rewrite Hx; simpl.
    destruct (Hskip startInx x) as [Ht Hh]; [clear -Hj; lia|done|].
    unfold has_text_summary in Ht. unfold summary_hit in Hh.
    destruct (props x !! "SUMMARY") as [[|t|]|]; try discriminate.
    rewrite Hh, app_nil_r.
    destruct (getEventCount self <=? startInx + 1) eqn:Hend.
    + apply Z.leb_le in Hend. unfold getEventCount in Hend.
      clear -Hend Hlen Hj H0. lia.
    + apply IH; [clear -H0; lia|clear -Hj; lia|clear -Hfuel; lia|].
      intros k y Hk'. apply Hskip. clear -Hk'. lia.
Qed.

(** A record without [SUMMARY] stops the search: when the scan reaches
    it before any hit, the call raises [KeyError] instead of skipping
    it. *)
Theorem findEventBySummary_missing_summary_raises
    (self : ical) (srch : string) (startInx j : Z) (e : Component) :
  is_empty (_calendar self) = false ->
  0 <= startInx <= j ->
  _events self !! Z.to_nat j = Some e ->
  props e !! "SUMMARY" = None ->
  (forall k x, startInx <= k < j -> _events self !! Z.to_nat k = Some x ->
               has_text_summary x = true /\ summary_hit srch x = false) ->
  findEventBySummary self srch startInx
  = Some (Raise (KeyError "SUMMARY"), []).
Proof.
  intros Hcal Hj He Hs Hskip. unfold findEventBySummary. rewrite Hcal.
  simpl negb. cbv iota.
  assert (Hlen : (Z.to_nat j < length (_events self))%nat)
    by (by apply lookup_lt_Some in He).
  apply (summary_loop_missing_summary self srch _ j e Hcal He Hs
           (Z.to_nat (j - startInx))); try done.
  - clear -Hj; lia.
  - clear -Hj; lia.
  - unfold summary_fuel, getEventCount. clear -Hj Hlen. lia.
Qed.

Lemma findEventBySummary_missing_summary_raises_witness :
  findEventBySummary agenda "standup" 0
  = Some (Raise (KeyError "SUMMARY"), []).
Proof.
  apply (findEventBySummary_missing_summary_raises agenda "standup" 0 1
           eventNoSummary).
  - vm_compute; reflexivity.
  - lia.
  - reflexivity.
  - vm_compute; reflexivity.
  - intros k x Hk Hx. assert (k = 0) as -> by lia.
    simpl in Hx. injection Hx as <-. split; vm_compute; reflexivity.
Defined.

(** ** More on the extension stripper *)

(** What stripping keeps and what it drops: a property is in the result
    exactly when it is in the event under a name with no ["X-"] in it,
    with the same value; the result is a [VEVENT] without subcomponents,
    so the alarms and other components nested in the event are dropped
    with the extensions. *)
Theorem strip_keeps_exactly_unmarked
    (e : Component) (k : string) (v : value) :
  (props (stripApplicationSpecificSubcomponents e) !! k = Some v
   <-> props e !! k = Some v /\ str_in "X-" k = false)
  /\ name (stripApplicationSpecificSubcomponents e) = "VEVENT"
  /\ subcomponents (stripApplicationSpecificSubcomponents e) = [].
Proof.
  split; [|split; reflexivity].
  rewrite strip_lookup. destruct (str_in "X-" k); split.
  - discriminate.
  - intros [_ Hk]; discriminate.
  - intros Hv; by split.
  - by intros [Hv _].
Qed.

(** Stripping an event that has no marked name and no subcomponents
    returns the event as it is. *)
Theorem strip_of_plain_event (e : Component) :
  name e = "VEVENT" -> subcomponents e = [] ->
  (forall k, is_Some (props e !! k) -> str_in "X-" k = false) ->
  stripApplicationSpecificSubcomponents e = e.
Proof.
  intros Hn Hs Hplain. apply Component_eq; [by rewrite Hn|..].
  - apply map_eq; intros k. rewrite strip_lookup.
    destruct (str_in "X-" k) eqn:Hk; [|done].
    destruct (props e !! k) as [v|] eqn:Hv; [|done].
    rewrite Hplain in Hk by (by rewrite Hv). discriminate.
  - by rewrite Hs.
Qed.

Lemma strip_of_plain_event_witness :
  stripApplicationSpecificSubcomponents eventC = eventC.
Proof.
  apply strip_of_plain_event; [reflexivity|reflexivity|].
  intros k [v Hv]. unfold eventC, event_of in Hv. cbn [props] in Hv.
  destruct (decide (k = "SUMMARY")) as [->|H1]; [reflexivity|].
  rewrite lookup_insert_ne in Hv by exact (not_eq_sym H1).
  destruct (decide (k = "DTEND")) as [->|H2]; [reflexivity|].
  rewrite lookup_insert_ne in Hv by exact (not_eq_sym H2).
  destruct (decide (k = "RRULE")) as [->|H3]; [reflexivity|].
  rewrite lookup_singleton_ne in Hv by exact (not_eq_sym H3).
  discriminate Hv.
Defined.

(** Stripping an event whose names all carry the marker leaves an event
    with no property at all, which [is_empty] takes for empty. *)
Theorem strip_of_vendor_only_event (e : Component) :
  (forall k, is_Some (props e !! k) -> str_in "X-" k = true) ->
  stripApplicationSpecificSubcomponents e = Event
  /\ is_empty (stripApplicationSpecificSubcomponents e) = true.
Proof.
  intros Hall.
  assert (He : stripApplicationSpecificSubcomponents e = Event).
  { apply Component_eq; try reflexivity.
    apply map_eq; intros k. rewrite strip_lookup.
    change (props Event) with (∅ : gmap string value).
    rewrite lookup_empty.
    destruct (str_in "X-" k) eqn:Hk; [reflexivity|].
    destruct (props e !! k) as [v|] eqn:Hv; [|reflexivity].
    rewrite Hall in Hk by (by rewrite Hv). discriminate Hk. }
  split; [done|]. rewrite He. vm_compute; reflexivity.
Qed.

Lemma strip_of_vendor_only_event_witness :
  stripApplicationSpecificSubcomponents eventVendorOnly = Event.
Proof.
  apply strip_of_vendor_only_event.
  intros k [v Hv]. unfold eventVendorOnly in Hv. cbn [props] in Hv.
  destruct (decide (k = "X-APPLE-TRAVEL-TIME")) as [->|H1]; [reflexivity|].
  rewrite lookup_insert_ne in Hv by exact (not_eq_sym H1).
  destruct (decide (k = "X-MICROSOFT-CDO-BUSYSTATUS")) as [->|H2];
    [reflexivity|].
  rewrite lookup_singleton_ne in Hv by exact (not_eq_sym H2).
  discriminate Hv.
Defined.

(** ** Writing, and the script as a whole *)

Lemma createNew_fname (self : ical) : _fname (createNew self) = _fname self.
Proof.
  unfold createNew, reset; simpl.
  by destruct (negb (is_empty (_calendar self))).
Qed.

(** [writeToFile] writes the calendar and counts the list.  After
    [createNew] the file holds a calendar without any event while the line
    printed reports the events still in the list; on an empty calendar
    nothing is written or printed and [False] is returned, whatever the
    list holds. *)
Theorem writeToFile_writes_calendar_counts_list
    (w : write_result) (self : ical) :
  writeToFile WriteOk (createNew self)
  = (true, Holds new_calendar,
     [LineWrote (getEventCount self) (_fname self)])
  /\ (is_empty (_calendar self) = true ->
      writeToFile w self = (false, Untouched, [])).
Proof.
  split.
  - unfold writeToFile, getEventCount.
    by rewrite createNew_calendar, is_empty_new_calendar, createNew_events,
      createNew_fname.
  - intros He. unfold writeToFile. by rewrite He.
Qed.

Lemma writeToFile_writes_calendar_counts_list_witness :
  getEventCount stale = 4
  /\ writeToFile WriteOk stale = (false, Untouched, []).
Proof.
  split; [vm_compute; reflexivity|].
  apply (writeToFile_writes_calendar_counts_list WriteOk stale).
  vm_compute; reflexivity.
Defined.

Lemma readFromFile_init (fs : file_system) (fname : string)
    (verbosity : bool) (cal : Component) :
  open_rb fs = OsOk (Some cal) ->
  (verbosity = true -> exists size, stat_size fs = OsOk size) ->
  exists out,
    readFromFile fs (__init__ fname verbosity)
    = (Ok true,
       mk_ical fname verbosity FileClosed cal (walk "VEVENT" cal), out).
Proof.
  intros Hopen Hstat. unfold readFromFile, try_open, __init__.
  cbn [_calendar _verbosity _fname].
  change (is_empty Calendar) with true. cbv iota.
  destruct verbosity.
  - destruct (Hstat eq_refl) as [size ->]. rewrite Hopen. by eexists.
  - rewrite Hopen. by eexists.
Qed.

(** When the input file is missing or unreadable the script prints the
    cause and the line telling the load failed, exits with status 1 and
    leaves the output file alone. *)
Theorem main_input_unreadable
    (fs : file_system) (today : date) (w : write_result)
    (args : arguments) :
  open_rb fs = FileNotFoundError \/ open_rb fs = PermissionError ->
  stat_size fs <> OtherOSError ->
  exists out,
    main fs today w args
    = (ExitStatus1, Untouched, map Line out ++ [LineErrorLoading])
    /\ (last out = Some (MsgNotFound (infile args))
        \/ last out = Some (MsgNoPermission (infile args))).
Proof.
  intros Hopen Hstat. unfold main, readFromFile, try_open, __init__.
  cbn [_calendar _verbosity _fname].
  change (is_empty Calendar) with true. cbv iota.
  destruct (verbose args).
  - destruct (stat_size fs) as [size| | |]; [| | |done].
    + destruct Hopen as [-> | ->]; eexists; split; try reflexivity;
        [left|right]; reflexivity.
    + eexists; split; [reflexivity|]. by left.
    + eexists; split; [reflexivity|]. by right.
  - destruct Hopen as [-> | ->]; eexists; split; try reflexivity;
      [left|right]; reflexivity.
Qed.

Lemma main_input_unreadable_witness :
  exists out,
    main (mk_fs FileNotFoundError FileNotFoundError) today0 WriteOk args0
    = (ExitStatus1, Untouched, map Line out ++ [LineErrorLoading])
    /\ (last out = Some (MsgNotFound "in.ics")
        \/ last out = Some (MsgNoPermission "in.ics")).
Proof.
  apply (main_input_unreadable (mk_fs FileNotFoundError FileNotFoundError)
           today0 WriteOk args0).
  - by left.
  - discriminate.
Defined.

(** The normal run.  When the input decodes and every event passes the
    loop of the filter, the script ends with status 0 and the output file
    holds a calendar with [PRODID] and [VERSION] and, as components, the
    surviving events in input order, each stripped if asked; with no
    survivor the file is still written.  A failed write is printed and
    does not change the exit status. *)
Theorem main_writes_surviving_events
    (fs : file_system) (today : date) (w : write_result)
    (args : arguments) (cal : Component) (cutoff : date) :
  open_rb fs = OsOk (Some cal) ->
  (verbose args = true -> exists size, stat_size fs = OsOk size) ->
  Date.minus_months today (monthsBefore args) = Some cutoff ->
  Forall (fun e => filterable (verbose args) cutoff e = true)
         (walk "VEVENT" cal) ->
  exists out,
    main fs today w args
    = (ExitOk,
       match w with
       | WriteOk =>
           Holds (mkComponent "VCALENDAR" (props new_calendar)
                    (map (delivered (stripAppSpecific args))
                         (List.filter (qualifies cutoff)
                                      (walk "VEVENT" cal))))
       | OpenFails => Untouched
       | FailsAfterOpen => Clobbered
       end, out)
    /\ last out
       = Some (match w with
               | WriteOk =>
                   LineWrote
                     (Z.of_nat
                        (length (List.filter (qualifies cutoff)
                                             (walk "VEVENT" cal))))
                     (outfile args)
               | _ => LineException
               end).
Proof.
  intros Hopen Hstat Hcut Hall. unfold main.
  destruct (readFromFile_init fs (infile args) (verbose args) cal Hopen Hstat)
    as [out1 ->].
  destruct (findEventsByDateAfter today (monthsBefore args)
              (mk_ical (infile args) (verbose args) FileClosed cal
                 (walk "VEVENT" cal))) as [r out2] eqn:Hrun.
  assert (Hr : r = Ok (List.filter (qualifies cutoff) (walk "VEVENT" cal))).
  { apply (f_equal fst) in Hrun. simpl in Hrun. rewrite <- Hrun.
    unfold findEventsByDateAfter.
    rewrite (proj1 (subtract_months_inl _ _ _) Hcut).
    cbn [_verbosity _events].
    by rewrite (filter_loop_filter _ _ _ Hall). }
  subst r.
  set (kept := List.filter (qualifies cutoff) (walk "VEVENT" cal)).
  set (outcal := createNew (__init__ (outfile args) (verbose args))).
  assert (Hne : is_empty (_calendar outcal) = false)
    by (unfold outcal; by rewrite createNew_calendar, is_empty_new_calendar).
  destruct (add_all_appends (stripAppSpecific args) kept outcal Hne)
    as (Hcal & Hev & Hfn).
  unfold outcal in Hcal at 2 3 4, Hev at 2, Hfn at 2.
  rewrite createNew_calendar in Hcal. rewrite createNew_events in Hev.
  rewrite createNew_fname in Hfn. simpl in Hcal, Hev, Hfn.
  unfold writeToFile, getEventCount. rewrite Hcal, Hev, Hfn.
  rewrite is_empty_has_props by (simpl; apply insert_non_empty).
  simpl negb. cbv iota.
  destruct w; eexists; (split; [reflexivity|]);
    rewrite last_snoc; try reflexivity.
  by rewrite length_map.
Qed.

Lemma main_writes_surviving_events_witness :
  exists out,
    main fs0 today0 WriteOk args0
    = (ExitOk,
       Holds (mkComponent "VCALENDAR" (props new_calendar)
                (map stripApplicationSpecificSubcomponents
                     [eventB; eventC; eventD])), out)
    /\ last out = Some (LineWrote 3 "out.ics").
Proof.
  destruct (main_writes_surviving_events fs0 today0 WriteOk args0
              decoded0 cutoff0) as (out & Hmain & Hlast).
  - reflexivity.
  - discriminate.
  - vm_compute; reflexivity.
  - unfold decoded0. rewrite walk_flat
      by (repeat (constructor; [split; reflexivity|]); constructor).
    repeat (constructor; [vm_compute; reflexivity|]). constructor.
  - exists out. split.
    + rewrite Hmain. vm_compute. reflexivity.
    + rewrite Hlast. vm_compute. reflexivity.
Defined.

(** One event without [DTEND] in the input stops the script with a
    traceback before the output file is opened: nothing is written,
    whatever the other events are. *)
Theorem main_missing_dtend_writes_nothing
    (fs : file_system) (today : date) (w : write_result)
    (args : arguments) (cal e : Component) :
  open_rb fs = OsOk (Some cal) ->
  (verbose args = true -> exists size, stat_size fs = OsOk size) ->
  In e (walk "VEVENT" cal) ->
  props e !! "DTEND" = None ->
  exists x out, main fs today w args = (Traceback x, Untouched, out).
Proof.
  intros Hopen Hstat Hin Hd. unfold main.
  destruct (readFromFile_init fs (infile args) (verbose args) cal Hopen Hstat)
    as [out1 ->].
  destruct (findEventsByDateAfter today (monthsBefore args)
              (mk_ical (infile args) (verbose args) FileClosed cal
                 (walk "VEVENT" cal))) as [r out2] eqn:Hrun.
  assert (Hr : exists x, r = Raise x).
  { apply (f_equal fst) in Hrun. simpl in Hrun. rewrite <- Hrun.
    unfold findEventsByDateAfter.
    destruct (Date.subtract_months today (monthsBefore args))
      as [cutoff|[|]]; [|simpl; eauto..].
    cbn [_verbosity _events].
    apply (filter_loop_raises _ cutoff e); [done|].
    by apply survives_without_dtend. }
  destruct Hr as [x ->]. eauto.
Qed.

Lemma main_missing_dtend_writes_nothing_witness :
  exists x out,
    main (mk_fs (OsOk 512)
            (OsOk (Some (mkComponent "VCALENDAR" ∅
                           [eventB; eventNoEnd; eventC]))))
      today0 WriteOk args0
    = (Traceback x, Untouched, out).
Proof.
  apply (main_missing_dtend_writes_nothing _ today0 WriteOk args0
           (mkComponent "VCALENDAR" ∅ [eventB; eventNoEnd; eventC])
           eventNoEnd).
  - reflexivity.
  - discriminate.
  - rewrite walk_flat
      by (repeat (constructor; [split; reflexivity|]); constructor).
    right; left; reflexivity.
  - vm_compute; reflexivity.
Defined.

Lemma addEvent_then_getEvent_witness :
  fst (getEvent (snd (addEvent stale eventE)) 4) = Some eventE
  /\ fst (getEvent (snd (addEvent stale eventE)) 1) = Some eventB.
Proof.
  destruct (addEvent_then_getEvent stale eventE)
    as (_ & _ & Hnew & _ & Hold).
  split.
  - exact Hnew.
  - apply (Hold 1%nat eventB). vm_compute; reflexivity.
Defined.
